(** * BERT classifier (texar/modules/classifiers/bert_classifier.py)

    A shallow embedding of [BERTClassifier]: its constructor, its [forward]
    method and its [output_size] property, together with the tensor
    operations of the numeric library that [forward] calls.

    Tensors are kept the way the library stores them: a list of sizes and
    the elements in row-major order.  Tensor elements are left abstract
    behind the [Scalar] interface, so every general theorem holds for any
    interpretation of the floating-point operations; the rationals are used
    only to run the model on concrete inputs. *)

From Stdlib Require Import ZArith String List Bool Lia QArith.
Import ListNotations.

Local Open Scope string_scope.
Local Open Scope Z_scope.

(** ** Python exceptions and results *)

Inductive PyError : Type :=
| ValueError (msg : string)
| NameError (msg : string)
| UnboundLocalError (var : string)
| TypeError (msg : string)
| IndexError (msg : string)
| RuntimeError (msg : string).

Inductive result (X : Type) : Type :=
| Ok (x : X)
| Raise (e : PyError).

Arguments Ok {X} x.
Arguments Raise {X} e.

Definition is_ok {X : Type} (r : result X) : bool :=
  match r with Ok _ => true | Raise _ => false end.

Definition rbind {X Y : Type} (r : result X) (k : X -> result Y) : result Y :=
  match r with
  | Ok x => k x
  | Raise e => Raise e
  end.

Declare Scope result_scope.
Delimit Scope result_scope with result.
Notation "x <- c ;; k" := (rbind c (fun x => k))
  (at level 61, c at next level, right associativity) : result_scope.

(** Python values that may be stored in a hyperparameter or passed as a
    keyword argument. *)
Inductive PyVal : Type :=
| PyNone
| PyBool (b : bool)
| PyInt (z : Z)
| PyStr (s : string).

Definition truthy (v : PyVal) : bool :=
  match v with
  | PyNone => false
  | PyBool b => b
  | PyInt z => negb (z =? 0)
  | PyStr s => negb (String.eqb s EmptyString)
  end.

(** [int * Optional[int]] and [Optional[int] - int]: arithmetic on [None]
    is a [TypeError]. *)
Definition py_mul (a : Z) (b : option Z) : result Z :=
  match b with
  | Some b' => Ok (a * b')
  | None => Raise (TypeError "unsupported operand type(s) for *: int and NoneType")
  end.

Definition py_sub (a : option Z) (b : Z) : result Z :=
  match a with
  | Some a' => Ok (a' - b)
  | None => Raise (TypeError "unsupported operand type(s) for -: NoneType and int")
  end.

(** ** Scalars *)

(** The operations on tensor elements used by the classifier.  [gt x y] is
    the comparison [x > y]; [keep_scale p] is [1 / (1 - p)], the factor by
    which dropout rescales the elements it keeps. *)
Class Scalar (A : Type) : Type := {
  zero : A;
  one : A;
  add : A -> A -> A;
  mul : A -> A -> A;
  gt : A -> A -> bool;
  eqb : A -> A -> bool;
  keep_scale : A -> A
}.

(** ** Tensors *)

Record Tensor (A : Type) : Type := mkTensor {
  shape : list nat;
  data : list A
}.

Arguments mkTensor {A} shape data.
Arguments shape {A} t.
Arguments data {A} t.

Definition numel_of (s : list nat) : nat := fold_right Nat.mul 1%nat s.

(** [rows n count l]: the [count] consecutive rows of width [n] of a
    row-major buffer. *)
Definition rows {A : Type} (n count : nat) (l : list A) : list (list A) :=
  map (fun r => firstn n (skipn (r * n) l)) (seq 0 count).

(** [t.shape[i]] *)
Definition shape_at {A : Type} (t : Tensor A) (i : nat) : result Z :=
  match nth_error (shape t) i with
  | Some d => Ok (Z.of_nat d)
  | None => Raise (IndexError "tuple index out of range")
  end.

Module torch.
Section Ops.
Context {A : Type} `{Scalar A}.

(** [(t > 0).long()] *)
Definition gt0_long (t : Tensor A) : Tensor Z :=
  mkTensor (shape t) (map (fun x => if gt x zero then 1 else 0) (data t)).

(** [torch.flatten(t)] *)
Definition flatten {X : Type} (t : Tensor X) : Tensor X :=
  mkTensor [numel_of (shape t)] (data t).

(** [torch.squeeze(t, -1)]: drops the last dimension when its size is 1,
    and is the identity otherwise. *)
Definition squeeze_last {X : Type} (t : Tensor X) : Tensor X :=
  match rev (shape t) with
  | 1%nat :: pre => mkTensor (rev pre) (data t)
  | _ => t
  end.

(** Index of the first maximal element of a row: a later element takes
    over only when it is strictly greater than the best one so far. *)
Fixpoint argmax_from (best : A) (besti i : nat) (l : list A) : nat :=
  match l with
  | [] => besti
  | x :: tl =>
      if gt x best then argmax_from x i (S i) tl
      else argmax_from best besti (S i) tl
  end.

Definition argmax_row (l : list A) : Z :=
  match l with
  | [] => 0
  | x :: tl => Z.of_nat (argmax_from x 0 1 tl)
  end.

(** [torch.argmax(t, dim=-1)] *)
Definition argmax (t : Tensor A) : result (Tensor Z) :=
  match rev (shape t) with
  | [] => Ok (mkTensor [] [0])
  | O :: _ => Raise (IndexError "argmax(): Expected reduction dim to have non-zero size")
  | n :: pre =>
      Ok (mkTensor (rev pre)
            (map argmax_row (rows n (numel_of (rev pre)) (data t))))
  end.

(** [F.pad(t, [0, 0, 0, length_diff, 0, 0])]: constant padding of the last
    three dimensions, where only the end of the second-to-last one gets a
    non-zero amount.  A positive amount appends zeros, and then every
    padded dimension must have a positive size.  An amount that is not
    positive narrows the dimension, dropping its last elements; it may
    not take more than the dimension holds. *)
Definition pad_time (t : Tensor A) (length_diff : Z) : result (Tensor A) :=
  match rev (shape t) with
  | f :: tm :: b :: pre =>
      let new_t := Z.of_nat tm + length_diff in
      if new_t <? 0 then
        Raise (RuntimeError "narrow(): length must be non-negative")
      else if (0 <? length_diff) && ((f =? 0)%nat || (b =? 0)%nat) then
        Raise (RuntimeError "The input size plus negative padding resulted in a negative output size")
      else
        let nt := Z.to_nat new_t in
        Ok (mkTensor (rev pre ++ [b; nt; f])
              (flat_map
                 (fun blk => firstn (nt * f) (blk ++ repeat zero ((nt - tm) * f)))
                 (rows (tm * f) (numel_of (rev pre) * b) (data t))))
  | _ => Raise (RuntimeError "Padding length too large")
  end.

(** [t.view(-1, n)] *)
Definition view_rows {X : Type} (t : Tensor X) (n : Z) : result (Tensor X) :=
  if n <=? 0 then
    Raise (RuntimeError "invalid shape for view")
  else
    let k := Z.to_nat n in
    let total := numel_of (shape t) in
    if (total mod k =? 0)%nat then Ok (mkTensor [(total / k)%nat; k] (data t))
    else Raise (RuntimeError "shape is invalid for input size").

(** [nn.Linear] *)
Record Linear : Type := mkLinear {
  in_features : nat;
  out_features : nat;
  weight : nat -> nat -> A;
  bias : option (nat -> A)
}.

(** The values the initialiser (or a checkpoint) puts into a new layer. *)
Record LinearInit : Type := mkLinearInit {
  init_weight : nat -> nat -> A;
  init_bias : nat -> A
}.

(** Keyword arguments of the [nn.Linear] constructor: only [bias] is
    accepted. *)
Fixpoint linear_kwargs (kwargs : list (string * PyVal)) (use_bias : bool)
  : result bool :=
  match kwargs with
  | [] => Ok use_bias
  | (k, v) :: rest =>
      if String.eqb k "bias" then linear_kwargs rest (truthy v)
      else Raise (TypeError "__init__() got an unexpected keyword argument")
  end.

Definition nn_Linear (init : LinearInit) (in_f out_f : Z)
    (kwargs : list (string * PyVal)) : result Linear :=
  (use_bias <- linear_kwargs kwargs true ;;
   if (in_f <? 0) || (out_f <? 0) then
     Raise (RuntimeError "Trying to create tensor with negative dimension")
   else
     Ok (mkLinear (Z.to_nat in_f) (Z.to_nat out_f) (init_weight init)
           (if use_bias then Some (init_bias init) else None)))%result.

Definition dot (w : nat -> A) (x : list A) : A :=
  fold_left add
    (map (fun ix : nat * A => mul (snd ix) (w (fst ix))) (combine (seq 0 (length x)) x))
    zero.

Definition linear_row (l : Linear) (row : list A) : list A :=
  map (fun o =>
         match bias l with
         | Some b => add (dot (weight l o) row) (b o)
         | None => dot (weight l o) row
         end)
      (seq 0 (out_features l)).

(** [layer(t)]: the affine map applied along the last dimension. *)
Definition linear_forward (l : Linear) (t : Tensor A) : result (Tensor A) :=
  match rev (shape t) with
  | [] => Raise (RuntimeError "both arguments to matmul need to be at least 1D")
  | n :: pre =>
      if (n =? in_features l)%nat then
        Ok (mkTensor (rev pre ++ [out_features l])
              (flat_map (linear_row l) (rows n (numel_of (rev pre)) (data t))))
      else Raise (RuntimeError "size mismatch")
  end.

(** [nn.Dropout] *)
Record Dropout : Type := mkDropout { p : A }.

Definition nn_Dropout (rate : A) : result Dropout :=
  if gt zero rate || gt rate one then
    Raise (ValueError "dropout probability has to be between 0 and 1")
  else Ok (mkDropout rate).

(** The element-wise effect of a dropout mask: a kept element is
    multiplied by [1 / (1 - p)], a dropped one by zero. *)
Definition apply_mask (rate : A) (mask : list bool) (xs : list A) : list A :=
  map (fun kx : bool * A => mul (snd kx) (if fst kx then keep_scale rate else zero))
      (combine mask xs).

End Ops.
Arguments Linear A : clear implicits.
Arguments LinearInit A : clear implicits.
Arguments Dropout A : clear implicits.
End torch.

(** ** Random number generator *)

(** The generator is the sequence of outcomes of its future Bernoulli
    draws ([true]: the element is kept).  Drawing [n] outcomes advances
    it by [n]. *)
Definition Generator : Type := nat -> bool.

Definition draw (n : nat) (g : Generator) : list bool * Generator :=
  (map g (seq 0 n), fun i => g (n + i)%nat).

(** [dropout_layer(t)]: the identity in evaluation mode, for rate 0 and on
    empty tensors; all zeros for rate 1; otherwise a fresh mask is drawn. *)
Definition dropout_forward {A : Type} `{Scalar A}
    (layer : torch.Dropout A) (training : bool) (t : Tensor A) (g : Generator)
  : Tensor A * Generator :=
  if negb training || eqb (torch.p layer) zero
     || (numel_of (shape t) =? 0)%nat then (t, g)
  else if eqb (torch.p layer) one then
    (mkTensor (shape t) (map (fun x => mul x zero) (data t)), g)
  else
    let (mask, g') := draw (numel_of (shape t)) g in
    (mkTensor (shape t) (torch.apply_mask (torch.p layer) mask (data t)), g').

(** ** The encoder collaborator *)

Module BERTEncoder.
(** [output_size] is the encoder's feature dimension.  [forward training
    inputs sequence_length segment_ids] returns the pair
    [(enc_outputs, pooled_output)]; it may draw from the generator and
    it may raise. *)
Record t (A : Type) : Type := mk {
  output_size : Z;
  forward : bool -> Tensor Z -> option (Tensor Z) -> option (Tensor Z) ->
            Generator -> result (Tensor A * Tensor A) * Generator
}.
Arguments mk {A} output_size forward.
Arguments output_size {A} t.
Arguments forward {A} t training inputs sequence_length segment_ids g.
End BERTEncoder.

(** ** Hyperparameters *)

Module HParams.
(** The value of [logit_layer_kwargs]: [None], a mapping (which the
    hyperparameter machinery turns into an [HParams]), or anything
    else. *)
Inductive kwargs : Type :=
| KwNone
| KwHParams (d : list (string * PyVal))
| KwOther (v : PyVal).

Record t (A : Type) : Type := mk {
  num_classes : Z;
  logit_layer_kwargs : kwargs;
  clas_strategy : string;
  max_seq_length : option Z;
  dropout : A;
  name : string;
  encoder_dim : Z            (* hparams.encoder.dim *)
}.
Arguments mk {A}.
Arguments num_classes {A} t.
Arguments logit_layer_kwargs {A} t.
Arguments clas_strategy {A} t.
Arguments max_seq_length {A} t.
Arguments dropout {A} t.
Arguments name {A} t.
Arguments encoder_dim {A} t.
End HParams.

(** ** The classifier *)

Module BERTClassifier.
Section Classifier.
Context {A : Type} `{Scalar A}.

(** The attributes of an instance.  [training] is the module's mode flag:
    set at construction, cleared by [eval]. *)
Record t : Type := mk {
  _hparams : HParams.t A;
  _encoder : BERTEncoder.t A;
  _dropout_layer : torch.Dropout A;
  num_classes : Z;
  _logits_layer : option (torch.Linear A);
  is_binary : bool;
  training : bool
}.

(** *** State and exceptions *)

Record State : Type := mkState {
  self : t;
  generator : Generator
}.

Definition M (X : Type) : Type := State -> result X * State.

Definition ret {X : Type} (x : X) : M X := fun s => (Ok x, s).

Definition bind {X Y : Type} (c : M X) (k : X -> M Y) : M Y :=
  fun s =>
    match c s with
    | (Ok x, s') => k x s'
    | (Raise e, s') => (Raise e, s')
    end.

Definition raise {X : Type} (e : PyError) : M X := fun s => (Raise e, s).

Definition lift {X : Type} (r : result X) : M X := fun s => (r, s).

Definition get_self : M t := fun s => (Ok (self s), s).

Definition with_generator {X : Type} (f : Generator -> result X * Generator)
  : M X :=
  fun s => let (r, g') := f (generator s) in (r, mkState (self s) g').

Declare Scope py_scope.
Delimit Scope py_scope with py.
Notation "x <- c ;; k" := (bind c (fun x => k))
  (at level 61, c at next level, right associativity) : py_scope.

(** *** [__init__] *)

Definition __init__ (hparams : HParams.t A) (encoder : BERTEncoder.t A)
    (init : torch.LinearInit A) : result t :=
  ((* Create a dropout layer *)
   dropout_layer <- torch.nn_Dropout (HParams.dropout hparams) ;;
   (* Create an additional classification layer if needed *)
   let num_classes := HParams.num_classes hparams in
   logits_layer <-
     (if num_classes <=? 0 then Ok None
      else
        logit_kwargs <-
          match HParams.logit_layer_kwargs hparams with
          | HParams.KwNone => Ok []
          | HParams.KwOther _ =>
              Raise (ValueError "hparams['logit_layer_kwargs'] must be a dict.")
          | HParams.KwHParams d => Ok d
          end ;;
        if String.eqb (HParams.clas_strategy hparams) "all_time" then
          in_dim <- py_mul (BERTEncoder.output_size encoder)
                           (HParams.max_seq_length hparams) ;;
          layer <- torch.nn_Linear init in_dim num_classes logit_kwargs ;;
          Ok (Some layer)
        else
          layer <- torch.nn_Linear init (BERTEncoder.output_size encoder)
                                   num_classes logit_kwargs ;;
          Ok (Some layer)) ;;
   let is_binary :=
     (num_classes =? 1)
     || ((num_classes <=? 0) && (HParams.encoder_dim hparams =? 1)) in
   Ok (mk hparams encoder dropout_layer num_classes logits_layer is_binary
          true))%result.

(** [module.train(mode)] sets the mode flag; [module.eval()] is
    [module.train(False)]. *)
Definition train (mode : bool) (m : t) : t :=
  mk (_hparams m) (_encoder m) (_dropout_layer m) (num_classes m)
     (_logits_layer m) (is_binary m) mode.

Definition eval (m : t) : t := train false m.

(** *** [forward] *)

Definition forward (inputs : Tensor Z)
    (sequence_length segment_ids : option (Tensor Z))
  : M (Tensor A * Tensor Z) :=
  (self <- get_self ;;
   enc <- with_generator
            (BERTEncoder.forward (_encoder self) (training self)
               inputs sequence_length segment_ids) ;;
   let enc_outputs := fst enc in
   let pooled_output := snd enc in
   (* Compute logits *)
   let strategy := HParams.clas_strategy (_hparams self) in
   logits <-
     (if String.eqb strategy "time_wise" then ret enc_outputs
      else if String.eqb strategy "cls_time" then ret pooled_output
      else if String.eqb strategy "all_time" then
        (* Pad enc_outputs to have max_seq_length before flatten *)
        max_time <- lift (shape_at inputs 1) ;;
        length_diff <-
          lift (py_sub (HParams.max_seq_length (_hparams self)) max_time) ;;
        logit_input <- lift (torch.pad_time enc_outputs length_diff) ;;
        logit_input_dim <-
          lift (py_mul (BERTEncoder.output_size (_encoder self))
                       (HParams.max_seq_length (_hparams self))) ;;
        lift (torch.view_rows logit_input logit_input_dim)
      else
        raise (ValueError ("Unknown classification strategy: " ++ strategy))) ;;
   logits <-
     match _logits_layer self with
     | Some layer =>
         logits <- with_generator
                     (fun g =>
                        let (d, g') :=
                          dropout_forward (_dropout_layer self)
                            (training self) logits g in
                        (Ok d, g')) ;;
         lift (torch.linear_forward layer logits)
     | None => ret logits
     end ;;
   (* Compute predictions *)
   if String.eqb strategy "time_wise" then
     if is_binary self then
       let logits := torch.squeeze_last logits in
       let preds := torch.gt0_long logits in
       ret (logits, preds)
     else
       preds <- lift (torch.argmax logits) ;;
       ret (logits, preds)
   else
     if is_binary self then
       let preds := torch.gt0_long logits in
       let logits := torch.flatten logits in
       let preds := torch.flatten preds in
       ret (logits, preds)
     else
       preds <- lift (torch.argmax logits) ;;
       let preds := torch.flatten preds in
       ret (logits, preds))%py.

(** *** [output_size] *)

(** The local variable [logit_dim] is unbound ([None]) until a branch
    assigns it; returning it unbound raises. *)
Definition output_size (self : t) : result Z :=
  let clas_strategy := HParams.clas_strategy (_hparams self) in
  let n := HParams.num_classes (_hparams self) in
  if n <? 1 then
    Raise (NameError "logit_dim cannot be defined if self._hparams.num_classes < 1")
  else
    let logit_dim : option Z :=
      if String.eqb clas_strategy "cls_time"
         || String.eqb clas_strategy "all_time" then
        if n >? 1 then Some n
        else if n =? 1 then Some 1
        else None
      else if String.eqb clas_strategy "time_wise" then
        if n >? 1 then Some n
        else if n =? 1 then Some 1
        else None
      else None in
    match logit_dim with
    | Some d => Ok d
    | None => Raise (UnboundLocalError "logit_dim")
    end.

End Classifier.
Arguments t A : clear implicits.
Arguments State A : clear implicits.
End BERTClassifier.

(** The configuration errors that do not depend on the strategy: a dropout
    rate outside [0, 1], and a [logit_layer_kwargs] that is not a mapping
    or holds a key the layer rejects. *)
Definition dropout_valid {A : Type} `{Scalar A} (hp : HParams.t A) : bool :=
  negb (gt zero (HParams.dropout hp) || gt (HParams.dropout hp) one).

Definition kwargs_valid {A : Type} (hp : HParams.t A) : bool :=
  match HParams.logit_layer_kwargs hp with
  | HParams.KwNone => true
  | HParams.KwHParams d => is_ok (torch.linear_kwargs d true)
  | HParams.KwOther _ => false
  end.

(** A computation that leaves the instance as it found it. *)
Definition keeps_self {A X : Type} (c : BERTClassifier.M (A := A) X) : Prop :=
  forall s, BERTClassifier.self (snd (c s)) = BERTClassifier.self s.

(** *** The three stages of [forward]

    The body of [forward] after the encoder call, cut at its two comments:
    the strategy dispatch, the optional projection and the derivation of
    the predictions.  [forward_stages] below proves that [forward] is
    their composition; they serve to reason about it, stage by stage. *)
Section Stages.
Context {A : Type} `{Scalar A}.
Variable m : BERTClassifier.t A.

Let hp := BERTClassifier._hparams m.
Let strategy := HParams.clas_strategy hp.

Definition logits_source (inputs : Tensor Z) (enc_outputs pooled_output : Tensor A)
  : result (Tensor A) :=
  if String.eqb strategy "time_wise" then Ok enc_outputs
  else if String.eqb strategy "cls_time" then Ok pooled_output
  else if String.eqb strategy "all_time" then
    (max_time <- shape_at inputs 1 ;;
     length_diff <- py_sub (HParams.max_seq_length hp) max_time ;;
     logit_input <- torch.pad_time enc_outputs length_diff ;;
     logit_input_dim <-
       py_mul (BERTEncoder.output_size (BERTClassifier._encoder m))
              (HParams.max_seq_length hp) ;;
     torch.view_rows logit_input logit_input_dim)%result
  else Raise (ValueError ("Unknown classification strategy: " ++ strategy)).

Definition projection (logits : Tensor A) (g : Generator)
  : result (Tensor A) * Generator :=
  match BERTClassifier._logits_layer m with
  | Some layer =>
      let (d, g') :=
        dropout_forward (BERTClassifier._dropout_layer m)
          (BERTClassifier.training m) logits g in
      (torch.linear_forward layer d, g')
  | None => (Ok logits, g)
  end.

Definition predictions (logits : Tensor A) : result (Tensor A * Tensor Z) :=
  if String.eqb strategy "time_wise" then
    if BERTClassifier.is_binary m then
      Ok (torch.squeeze_last logits, torch.gt0_long (torch.squeeze_last logits))
    else
      (preds <- torch.argmax logits ;; Ok (logits, preds))%result
  else
    if BERTClassifier.is_binary m then
      Ok (torch.flatten logits, torch.flatten (torch.gt0_long logits))
    else
      (preds <- torch.argmax logits ;; Ok (logits, torch.flatten preds))%result.

End Stages.

(** The instance after the assignments [self.num_classes = attr] and
    [self._hparams.num_classes = hparam]; every other attribute, [is_binary]
    included, is left as it was. *)
Definition set_num_classes {A : Type} (attr hparam : Z) (m : BERTClassifier.t A)
  : BERTClassifier.t A :=
  let hp := BERTClassifier._hparams m in
  BERTClassifier.mk
    (HParams.mk hparam (HParams.logit_layer_kwargs hp) (HParams.clas_strategy hp)
       (HParams.max_seq_length hp) (HParams.dropout hp) (HParams.name hp)
       (HParams.encoder_dim hp))
    (BERTClassifier._encoder m) (BERTClassifier._dropout_layer m) attr
    (BERTClassifier._logits_layer m) (BERTClassifier.is_binary m)
    (BERTClassifier.training m).

(** The three documented values of [clas_strategy]. *)
Definition known_strategies : list string := ["cls_time"; "all_time"; "time_wise"].

(** ** A concrete instance, for running the model *)

Module Sample.

(** Rationals in lowest terms stand for the floating-point numbers. *)
#[export] Instance Scalar_Q : Scalar Q := {|
  zero := 0%Q;
  one := 1%Q;
  add := fun a b => Qred (a + b)%Q;
  mul := fun a b => Qred (a * b)%Q;
  gt := fun a b => negb (Qle_bool a b);
  eqb := Qeq_bool;
  keep_scale := fun p => Qred (1 / (1 - p))%Q
|}.

(** A deterministic stand-in for the encoder with two features per
    token: token [k] is encoded as [(k, 1 - k)], and the pooled output is
    the encoding of the first token of each sequence. *)
Definition embed (k : Z) : list Q := [inject_Z k; inject_Z (1 - k)].

Definition encoder_forward (training : bool) (inputs : Tensor Z)
    (sequence_length segment_ids : option (Tensor Z)) (g : Generator)
  : result (Tensor Q * Tensor Q) * Generator :=
  match shape inputs with
  | [b; tm] =>
      (Ok (mkTensor [b; tm; 2%nat] (flat_map embed (data inputs)),
           mkTensor [b; 2%nat]
             (flat_map (fun row => embed (hd 0 row)) (rows tm b (data inputs)))),
       g)
  | _ => (Raise (RuntimeError "inputs must be of shape [batch_size, max_time]"), g)
  end.

Definition encoder : BERTEncoder.t Q := BERTEncoder.mk 2 encoder_forward.

(** Weights [w o i = o + i + 1] and biases [b o = - o]. *)
Definition init : torch.LinearInit Q :=
  torch.mkLinearInit (fun o i => inject_Z (Z.of_nat (o + i + 1)))
                     (fun o => inject_Z (- Z.of_nat o)).

Definition hparams (num_classes : Z) (clas_strategy : string)
    (max_seq_length : option Z) (dropout : Q) : HParams.t Q :=
  HParams.mk num_classes HParams.KwNone clas_strategy max_seq_length dropout
    "bert_classifier" 2.

Definition two_class := hparams 2 "cls_time" None (1 # 10).
Definition five_class := hparams 5 "time_wise" None (1 # 10).
Definition binary := hparams 1 "time_wise" None (1 # 10).
Definition half_dropout := hparams 2 "cls_time" None (1 # 2).
Definition all_time_padded := hparams 2 "all_time" (Some 4) (1 # 10).
Definition all_time_short := hparams 2 "all_time" (Some 2) (1 # 10).
Definition all_time_unset := hparams 2 "all_time" None (1 # 10).
Definition all_time_unset_no_layer := hparams 0 "all_time" None (1 # 10).
Definition unknown := hparams 2 "mean_time" None (1 # 10).

(** The instance [__init__] builds, or a placeholder when it raises. *)
Definition build (hp : HParams.t Q) : BERTClassifier.t Q :=
  match BERTClassifier.__init__ hp encoder init with
  | Ok m => m
  | Raise _ =>
      BERTClassifier.mk hp encoder (torch.mkDropout 0%Q) 0 None false true
  end.

(** Two sequences of three tokens. *)
Definition inputs : Tensor Z := mkTensor [2%nat; 3%nat] [3; 0; 1; -2; 5; 0].

(** What the encoder returns on [inputs]. *)
Definition enc_outputs : Tensor Q :=
  mkTensor [2%nat; 3%nat; 2%nat] (flat_map embed (data inputs)).

Definition pooled_output : Tensor Q :=
  mkTensor [2%nat; 2%nat] (embed 3 ++ embed (-2))%list.

(** A generator that keeps every element, and one that keeps its first
    four draws and drops all later ones. *)
Definition keep_all : Generator := fun _ => true.
Definition fading : Generator := fun i => (i <? 4)%nat.

Definition run (m : BERTClassifier.t Q) (g : Generator)
  : result (Tensor Q * Tensor Z) :=
  fst (BERTClassifier.forward inputs None None (BERTClassifier.mkState m g)).

End Sample.

(** ** Hyperparameter dictionaries and [default_hparams] *)

(** The values a hyperparameter dictionary holds. *)
#[warnings="-register-all"]
Inductive HPVal : Type :=
| HPNone
| HPBool (b : bool)
| HPInt (z : Z)
| HPFloat (q : Q)
| HPStr (s : string)
| HPDict (d : list (string * HPVal)).

(** A Python [dict] with string keys: its items in insertion order. *)
Definition PyDict : Type := list (string * HPVal).

(** [d.get(k)] *)
Fixpoint dict_get (k : string) (d : PyDict) : option HPVal :=
  match d with
  | [] => None
  | (k', v) :: rest => if String.eqb k k' then Some v else dict_get k rest
  end.

(** [d[k] = v]: an existing key keeps its place and takes the new value, a
    new key goes to the end. *)
Fixpoint dict_set (k : string) (v : HPVal) (d : PyDict) : PyDict :=
  match d with
  | [] => [(k, v)]
  | (k', v') :: rest =>
      if String.eqb k k' then (k', v) :: rest
      else (k', v') :: dict_set k v rest
  end.

(** [d.update(other)] *)
Definition dict_update (d other : PyDict) : PyDict :=
  fold_left (fun acc kv => dict_set (fst kv) (snd kv) acc) other d.

(** The dictionary literal passed to [hparams.update] in
    [default_hparams]. *)
Definition classifier_defaults : PyDict :=
  [("num_classes", HPInt 2);
   ("logit_layer_kwargs", HPNone);
   ("clas_strategy", HPStr "cls_time");
   ("max_seq_length", HPNone);
   ("dropout", HPFloat (1 # 10));
   ("name", HPStr "bert_classifier")].

(** [BERTClassifier.default_hparams()], given what
    [BERTEncoder.default_hparams()] returns. *)
Definition default_hparams (encoder_defaults : PyDict) : PyDict :=
  dict_update encoder_defaults classifier_defaults.

(** ** Well-shaped tensors *)

(** A tensor holds as many elements as its shape says. *)
Definition well_shaped {X : Type} (t : Tensor X) : Prop :=
  List.length (data t) = numel_of (shape t).

(** [t.shape[-1]] *)
Definition last_dim {X : Type} (t : Tensor X) : nat := last (shape t) 0%nat.

(** ** More concrete inputs *)

Module MoreSamples.

(** An excerpt of what [BERTEncoder.default_hparams()] returns. *)
Definition encoder_defaults : PyDict :=
  [("pretrained_model_name", HPStr "bert-base-uncased");
   ("embed", HPDict [("dim", HPInt 768); ("name", HPStr "word_embeddings")]);
   ("vocab_size", HPInt 30522);
   ("encoder", HPDict [("dim", HPInt 768); ("num_blocks", HPInt 12)]);
   ("hidden_size", HPInt 768);
   ("name", HPStr "bert_encoder")].

Definition bad_kwargs : HParams.t Q :=
  HParams.mk 2 (HParams.KwOther (PyInt 3)) "cls_time" None (1 # 10)
    "bert_classifier" 2.

(** [Sample.inputs] cut to the first two tokens of each sequence, and what
    the encoder returns on them. *)
Definition truncated_inputs : Tensor Z := mkTensor [2%nat; 2%nat] [3; 0; -2; 5].

Definition truncated_outputs : Tensor Q :=
  mkTensor [2%nat; 2%nat; 2%nat] (flat_map Sample.embed (data truncated_inputs)).

Definition no_layer := Sample.hparams 0 "cls_time" None (1 # 10).
Definition all_time_exact := Sample.hparams 2 "all_time" (Some 3) (1 # 10).
Definition all_time_binary := Sample.hparams 1 "all_time" (Some 4) (1 # 10).

(** The layer [Sample.build] puts into a two-class instance that is not
    [all_time]. *)
Definition two_class_layer : torch.Linear Q :=
  torch.mkLinear 2 2 (torch.init_weight Sample.init)
    (Some (torch.init_bias Sample.init)).

End MoreSamples.

(** * Properties *)

Section Properties.
Context {A : Type} `{Scalar A}.

Import BERTClassifier.
Local Open Scope list_scope.

Implicit Types (m : BERTClassifier.t A) (hp : HParams.t A)
  (enc : BERTEncoder.t A) (init : torch.LinearInit A).

(** ** Strings *)

Lemma known_strategy_cases (s : string) :
  In s known_strategies ->
  s = "cls_time" \/ s = "all_time" \/ s = "time_wise".
Proof.
  unfold known_strategies; simpl.
  intros [E | [E | [E | []]]]; subst; auto.
Qed.

Lemma unknown_strategy_eqb (s : string) :
  ~ In s known_strategies ->
  String.eqb s "cls_time" = false /\ String.eqb s "all_time" = false
  /\ String.eqb s "time_wise" = false.
Proof.
  unfold known_strategies; simpl; intros Hn.
  repeat split; apply String.eqb_neq; intros ->; apply Hn; auto.
Qed.

(** ** Tensor operations *)

Lemma numel_of_app (s1 s2 : list nat) :
  numel_of (s1 ++ s2) = (numel_of s1 * numel_of s2)%nat.
Proof.
  induction s1 as [| d s1 IH]; simpl.
  - lia.
  - rewrite IH. lia.
Qed.

Lemma rev_snoc (pre : list nat) (n : nat) : rev (pre ++ [n]) = n :: rev pre.
Proof. rewrite rev_app_distr. reflexivity. Qed.

Lemma dropout_forward_shape layer training (t : Tensor A) g :
  shape (fst (dropout_forward layer training t g)) = shape t.
Proof.
  unfold dropout_forward.
  destruct (negb training || eqb (torch.p layer) zero
            || (numel_of (shape t) =? 0)%nat); [reflexivity |].
  destruct (eqb (torch.p layer) one); reflexivity.
Qed.

Lemma dropout_forward_eval layer (t : Tensor A) g :
  dropout_forward layer false t g = (t, g).
Proof. reflexivity. Qed.

Lemma linear_forward_ok (l : torch.Linear A) (t : Tensor A) pre :
  shape t = pre ++ [torch.in_features l] ->
  torch.linear_forward l t =
  Ok (mkTensor (pre ++ [torch.out_features l])
        (flat_map (torch.linear_row l)
           (rows (torch.in_features l) (numel_of pre) (data t)))).
Proof.
  intros Hs. unfold torch.linear_forward.
  rewrite Hs, rev_snoc, Nat.eqb_refl, rev_involutive. reflexivity.
Qed.

Lemma linear_forward_inv (l : torch.Linear A) (t out : Tensor A) :
  torch.linear_forward l t = Ok out ->
  exists pre,
    shape t = pre ++ [torch.in_features l]
    /\ shape out = pre ++ [torch.out_features l].
Proof.
  unfold torch.linear_forward. intros Hl.
  destruct (rev (shape t)) as [| n pre] eqn:Er; [discriminate |].
  destruct (Nat.eqb_spec n (torch.in_features l)) as [-> |]; [| discriminate].
  injection Hl as <-. exists (rev pre). split; [| reflexivity].
  rewrite <- (rev_involutive (shape t)), Er. reflexivity.
Qed.

Lemma argmax_ok (t : Tensor A) pre n :
  shape t = pre ++ [S n] ->
  torch.argmax t =
  Ok (mkTensor pre (map torch.argmax_row (rows (S n) (numel_of pre) (data t)))).
Proof.
  intros Hs. unfold torch.argmax.
  rewrite Hs, rev_snoc, rev_involutive. reflexivity.
Qed.

Lemma flatten_vector {X} (b : nat) (d : list X) :
  torch.flatten (mkTensor [b] d) = mkTensor [b] d.
Proof. unfold torch.flatten; simpl. rewrite Nat.mul_1_r. reflexivity. Qed.

Lemma flatten_gt0_long (t : Tensor A) :
  torch.flatten (torch.gt0_long t) = torch.gt0_long (torch.flatten t).
Proof. reflexivity. Qed.


Lemma pad_time_ok (t : Tensor A) (B T F : nat) (length_diff : Z) :
  shape t = [B; T; F] ->
  (1 <= B)%nat -> (1 <= F)%nat -> 0 < Z.of_nat T + length_diff ->
  let nt := Z.to_nat (Z.of_nat T + length_diff) in
  torch.pad_time t length_diff =
  Ok (mkTensor [B; nt; F]
        (flat_map (fun blk => firstn (nt * F) (blk ++ repeat zero ((nt - T) * F)))
           (rows (T * F) B (data t)))).
Proof.
  intros Hs HB HF Hnt nt. unfold torch.pad_time. rewrite Hs. cbn [rev app].
  destruct (Z.ltb_spec (Z.of_nat T + length_diff) 0); [lia |].
  destruct (Nat.eqb_spec F 0); [lia |].
  destruct (Nat.eqb_spec B 0); [lia |].
  rewrite andb_false_r.
  cbn [numel_of fold_right]. rewrite Nat.mul_1_l. reflexivity.
Qed.

(** A negative amount keeps the first time steps of every sequence. *)
Lemma pad_time_crop (t : Tensor A) (B T F : nat) (length_diff : Z) :
  shape t = [B; T; F] ->
  (1 <= B)%nat -> (1 <= F)%nat -> 0 < Z.of_nat T + length_diff ->
  length_diff < 0 ->
  let nt := Z.to_nat (Z.of_nat T + length_diff) in
  torch.pad_time t length_diff =
  Ok (mkTensor [B; nt; F]
        (flat_map (firstn (nt * F)) (rows (T * F) B (data t)))).
Proof.
  intros Hs HB HF Hnt Hneg nt.
  rewrite (pad_time_ok t B T F length_diff Hs HB HF Hnt). fold nt.
  replace (nt - T)%nat with 0%nat by lia. cbn [Nat.mul repeat].
  do 2 f_equal. apply flat_map_ext. intros blk. rewrite app_nil_r. reflexivity.
Qed.

Lemma view_rows_ok {X} (t : Tensor X) (B L F : nat) (n : Z) :
  shape t = [B; L; F] ->
  0 < n -> Z.to_nat n = (F * L)%nat ->
  torch.view_rows t n = Ok (mkTensor [B; Z.to_nat n] (data t)).
Proof.
  intros Hs Hn Hk. unfold torch.view_rows.
  destruct (Z.leb_spec n 0); [lia |].
  rewrite Hs. cbn [numel_of fold_right]. rewrite Nat.mul_1_r.
  assert (Hk0 : (F * L)%nat <> 0%nat) by lia.
  rewrite Hk.
  replace (B * (L * F))%nat with (B * (F * L))%nat by lia.
  rewrite Nat.Div0.mod_mul, Nat.div_mul by exact Hk0.
  reflexivity.
Qed.

(** *** What [argmax_row] computes

    When [gt] is a strict order compatible with its complement, the
    index returned for a non-empty row is that of a maximal element, and
    the first such index. *)
Section ArgmaxOrder.
Hypothesis gt_asym : forall x y : A, gt x y = true -> gt y x = false.
Hypothesis gt_le_trans :
  forall x y z : A, gt x y = true -> gt z y = false -> gt x z = true.

Lemma argmax_from_spec (d : A) (l p : list A) (best : A) (besti : nat) :
  (besti < length p)%nat ->
  nth besti (p ++ l) d = best ->
  (forall j, (j < length p)%nat -> gt (nth j (p ++ l) d) best = false) ->
  (forall j, (j < besti)%nat -> gt best (nth j (p ++ l) d) = true) ->
  let r := torch.argmax_from best besti (length p) l in
  (r < length (p ++ l))%nat
  /\ (forall j, (j < length (p ++ l))%nat ->
                gt (nth j (p ++ l) d) (nth r (p ++ l) d) = false)
  /\ (forall j, (j < r)%nat -> gt (nth r (p ++ l) d) (nth j (p ++ l) d) = true).
Proof.
  revert p best besti.
  induction l as [| x tl IH]; intros p best besti Hlt Hbest Hle Hfirst; cbn [torch.argmax_from].
  - rewrite app_nil_r in *. rewrite Hbest. auto.
  - assert (Hw : p ++ x :: tl = (p ++ [x]) ++ tl)
      by (rewrite <- app_assoc; reflexivity).
    assert (Hx : nth (length p) (p ++ x :: tl) d = x)
      by (rewrite app_nth2, Nat.sub_diag by lia; reflexivity).
    assert (Hlen : length (p ++ [x]) = S (length p))
      by (rewrite length_app; simpl; lia).
    destruct (gt x best) eqn:Hgt.
    + specialize (IH (p ++ [x]) x (length p)).
      rewrite <- Hw, Hlen in IH. apply IH.
      * lia.
      * exact Hx.
      * intros j Hj. destruct (Nat.eq_dec j (length p)) as [-> | Hne].
        -- rewrite Hx. destruct (gt x x) eqn:E; [| reflexivity].
           rewrite (gt_asym _ _ E) in E. discriminate.
        -- apply gt_asym, gt_le_trans with best; [exact Hgt |].
           apply Hle. lia.
      * intros j Hj. apply gt_le_trans with best; [exact Hgt |].
        apply Hle. exact Hj.
    + specialize (IH (p ++ [x]) best besti).
      rewrite <- Hw, Hlen in IH. apply IH.
      * lia.
      * exact Hbest.
      * intros j Hj. destruct (Nat.eq_dec j (length p)) as [-> | Hne].
        -- rewrite Hx. exact Hgt.
        -- apply Hle. lia.
      * exact Hfirst.
Qed.

Lemma argmax_row_spec (d : A) (l : list A) :
  l <> [] ->
  let r := Z.to_nat (torch.argmax_row l) in
  (r < length l)%nat
  /\ (forall j, (j < length l)%nat -> gt (nth j l d) (nth r l d) = false)
  /\ (forall j, (j < r)%nat -> gt (nth r l d) (nth j l d) = true).
Proof.
  destruct l as [| x tl]; [congruence | intros _].
  cbn [torch.argmax_row]. rewrite Nat2Z.id.
  apply (argmax_from_spec d tl [x] x 0%nat); simpl.
  - lia.
  - reflexivity.
  - intros j Hj. assert (j = 0%nat) as -> by lia.
    destruct (gt x x) eqn:E; [| reflexivity].
    rewrite (gt_asym _ _ E) in E. discriminate.
  - intros j Hj. lia.
Qed.
End ArgmaxOrder.


(** ** [output_size] *)

(** C8. For each of the three strategies, the output-size query raises
    exactly when [num_classes < 1] (a [NameError]); otherwise it returns
    [num_classes] when that exceeds 1 and 1 when it equals 1. *)
Theorem output_size_known_strategy m :
  In (HParams.clas_strategy (_hparams m)) known_strategies ->
  let n := HParams.num_classes (_hparams m) in
  (is_ok (output_size m) = false <-> n < 1)
  /\ (n < 1 ->
      output_size m =
      Raise (NameError "logit_dim cannot be defined if self._hparams.num_classes < 1"))
  /\ (1 < n -> output_size m = Ok n)
  /\ (n = 1 -> output_size m = Ok 1).
Proof.
  intros Hs n. unfold output_size. fold n.
  apply known_strategy_cases in Hs.
  destruct (Z.ltb_spec n 1) as [Hlt | Hge].
  - repeat split; simpl; intros; try reflexivity; try lia.
  - assert (Hval : (if n >? 1 then Some n else if n =? 1 then Some 1 else None)
                   = Some n).
    { destruct (Z.gtb_spec n 1); [reflexivity |].
      assert (n = 1) as -> by lia. reflexivity. }
    assert (Hret : match
               (if String.eqb (HParams.clas_strategy (_hparams m)) "cls_time"
                   || String.eqb (HParams.clas_strategy (_hparams m)) "all_time"
                then if n >? 1 then Some n else if n =? 1 then Some 1 else None
                else if String.eqb (HParams.clas_strategy (_hparams m)) "time_wise"
                     then if n >? 1 then Some n else if n =? 1 then Some 1 else None
                     else None)
             with Some d => Ok d | None => Raise (UnboundLocalError "logit_dim") end
             = Ok n).
    { rewrite Hval. destruct Hs as [-> | [-> | ->]]; reflexivity. }
    rewrite Hret. repeat split; simpl; intros; try lia; try discriminate.
    all: try reflexivity; f_equal; assumption.
Qed.

(** C10. With [num_classes >= 1] and a strategy outside the three known
    ones no branch assigns [logit_dim], and the query raises the
    unbound-variable error instead of returning. *)
Theorem output_size_unknown_strategy m :
  1 <= HParams.num_classes (_hparams m) ->
  ~ In (HParams.clas_strategy (_hparams m)) known_strategies ->
  output_size m = Raise (UnboundLocalError "logit_dim").
Proof.
  intros Hn Hs. unfold output_size.
  destruct (unknown_strategy_eqb _ Hs) as (E1 & E2 & E3).
  rewrite E1, E2, E3.
  destruct (Z.ltb_spec (HParams.num_classes (_hparams m)) 1); [lia | reflexivity].
Qed.

(** ** [__init__] *)

Lemma nn_Linear_inv init (in_f out_f : Z) kwargs (l : torch.Linear A) :
  torch.nn_Linear init in_f out_f kwargs = Ok l ->
  0 <= in_f /\ 0 <= out_f
  /\ torch.in_features l = Z.to_nat in_f
  /\ torch.out_features l = Z.to_nat out_f.
Proof.
  unfold torch.nn_Linear, rbind.
  destruct (torch.linear_kwargs kwargs true); [| discriminate].
  destruct (Z.ltb_spec in_f 0); simpl; [discriminate |].
  destruct (Z.ltb_spec out_f 0); simpl; [discriminate |].
  intros [= <-]; simpl; auto.
Qed.

(** What a successful construction establishes. *)
Lemma init_inv hp enc init m :
  __init__ hp enc init = Ok m ->
  let n := HParams.num_classes hp in
  _hparams m = hp /\ _encoder m = enc /\ num_classes m = n
  /\ is_binary m = ((n =? 1) || ((n <=? 0) && (HParams.encoder_dim hp =? 1)))
  /\ training m = true
  /\ _dropout_layer m = torch.mkDropout (HParams.dropout hp)
  /\ (n <= 0 -> _logits_layer m = None)
  /\ (0 < n ->
      exists l d,
        _logits_layer m = Some l
        /\ torch.out_features l = Z.to_nat n
        /\ torch.in_features l = Z.to_nat d /\ 0 <= d
        /\ (if String.eqb (HParams.clas_strategy hp) "all_time"
            then py_mul (BERTEncoder.output_size enc)
                        (HParams.max_seq_length hp) = Ok d
            else d = BERTEncoder.output_size enc)).
Proof.
  intros Hin n. unfold __init__, rbind in Hin. fold n in Hin.
  unfold torch.nn_Dropout in Hin.
  destruct (gt zero (HParams.dropout hp) || gt (HParams.dropout hp) one);
    [discriminate |].
  destruct (Z.leb_spec n 0) as [Hle | Hgt].
  - injection Hin as <-; simpl. repeat split; auto. intros; lia.
  - destruct (HParams.logit_layer_kwargs hp) as [| d | v]; try discriminate.
    + destruct (String.eqb (HParams.clas_strategy hp) "all_time") eqn:Es.
      * destruct (py_mul _ _) as [d |] eqn:Ed; [| discriminate].
        destruct (torch.nn_Linear init d n []) as [l |] eqn:El; [| discriminate].
        injection Hin as <-; cbn [_hparams _encoder num_classes is_binary training _dropout_layer _logits_layer].
        apply nn_Linear_inv in El. destruct El as (? & ? & ? & ?).
        repeat split; auto; [intros; lia |].
        intros _. exists l, d. auto.
      * destruct (torch.nn_Linear init _ n []) as [l |] eqn:El; [| discriminate].
        injection Hin as <-; cbn [_hparams _encoder num_classes is_binary training _dropout_layer _logits_layer].
        apply nn_Linear_inv in El. destruct El as (? & ? & ? & ?).
        repeat split; auto; [intros; lia |].
        intros _. exists l, (BERTEncoder.output_size enc). auto.
    + destruct (String.eqb (HParams.clas_strategy hp) "all_time") eqn:Es.
      * destruct (py_mul _ _) as [d' |] eqn:Ed; [| discriminate].
        destruct (torch.nn_Linear init d' n d) as [l |] eqn:El; [| discriminate].
        injection Hin as <-; cbn [_hparams _encoder num_classes is_binary training _dropout_layer _logits_layer].
        apply nn_Linear_inv in El. destruct El as (? & ? & ? & ?).
        repeat split; auto; [intros; lia |].
        intros _. exists l, d'. auto.
      * destruct (torch.nn_Linear init _ n d) as [l |] eqn:El; [| discriminate].
        injection Hin as <-; cbn [_hparams _encoder num_classes is_binary training _dropout_layer _logits_layer].
        apply nn_Linear_inv in El. destruct El as (? & ? & ? & ?).
        repeat split; auto; [intros; lia |].
        intros _. exists l, (BERTEncoder.output_size enc). auto.
Qed.

(** ** [forward] *)

Ltac run_forward :=
  unfold forward, bind, get_self, with_generator, lift, ret, raise;
  cbn [self generator fst snd].

Lemma keeps_self_ret {X} (x : X) : keeps_self (ret (A := A) x).
Proof. intros s; reflexivity. Qed.

Lemma keeps_self_raise {X} e : keeps_self (raise (A := A) (X := X) e).
Proof. intros s; reflexivity. Qed.

Lemma keeps_self_lift {X} (r : result X) : keeps_self (lift (A := A) r).
Proof. intros s; reflexivity. Qed.

Lemma keeps_self_get : keeps_self (get_self (A := A)).
Proof. intros s; reflexivity. Qed.

Lemma keeps_self_generator {X} (f : Generator -> result X * Generator) :
  keeps_self (with_generator (A := A) f).
Proof. intros s; unfold with_generator. destruct (f (generator s)); reflexivity. Qed.

Lemma keeps_self_bind {X Y} (c : M X) (k : X -> M Y) :
  keeps_self c -> (forall x, keeps_self (k x)) -> keeps_self (bind (A := A) c k).
Proof.
  intros Hc Hk s. unfold bind.
  specialize (Hc s). destruct (c s) as [[x | e] s']; simpl in *.
  - rewrite Hk. exact Hc.
  - exact Hc.
Qed.

Create HintDb keeps.
Hint Resolve keeps_self_ret keeps_self_raise keeps_self_lift keeps_self_get
  keeps_self_generator : keeps.

Ltac keeps :=
  repeat first
    [ apply keeps_self_bind; [| intros ?]
    | match goal with
      | |- keeps_self (if ?b then _ else _) => destruct b
      | |- keeps_self (match ?o with Some _ => _ | None => _ end) => destruct o
      | |- keeps_self (let _ := _ in _) => cbv zeta
      end
    | solve [auto with keeps] ].

(** [forward] never assigns to an attribute of the instance. *)
Lemma forward_keeps_self inputs sl sg : keeps_self (forward (A := A) inputs sl sg).
Proof. unfold forward. keeps. Qed.

(** Once the logits source is known, what remains of [forward] branches
    on the layer, on the layer's result, on [is_binary] and on the
    result of [argmax]. *)
Ltac after_source :=
  match goal with
  | |- context [_logits_layer ?m] =>
      destruct (_logits_layer m) as [layer |]; cbn [self generator];
      [ destruct (dropout_forward _ _ _ _) as [d g2]; cbn [self generator];
        destruct (torch.linear_forward layer d); [| reflexivity] | ];
      (destruct (is_binary m); [reflexivity |]);
      destruct (torch.argmax _); reflexivity
  end.

(** [forward] is the encoder call followed by the three stages. *)
Lemma forward_stages inputs sl sg m g :
  forward inputs sl sg (mkState m g) =
  match BERTEncoder.forward (_encoder m) (training m) inputs sl sg g with
  | (Raise e, g1) => (Raise e, mkState m g1)
  | (Ok (enc_outputs, pooled_output), g1) =>
      match logits_source m inputs enc_outputs pooled_output with
      | Raise e => (Raise e, mkState m g1)
      | Ok src =>
          let (r, g2) := projection m src g1 in
          (rbind r (predictions m), mkState m g2)
      end
  end.
Proof.
  run_forward.
  destruct (BERTEncoder.forward _ _ _ _ _ _) as [[[eo po] | e] g1];
    cbn [self generator fst snd]; [| reflexivity].
  unfold logits_source, projection, predictions, rbind.
  destruct (String.eqb _ "time_wise") eqn:Etw; [after_source |].
  destruct (String.eqb _ "cls_time") eqn:Ect; [after_source |].
  destruct (String.eqb _ "all_time") eqn:Eat; [| reflexivity].
  destruct (shape_at inputs 1) as [mt |]; [| reflexivity].
  destruct (py_sub _ _) as [ld |]; [| reflexivity].
  destruct (torch.pad_time eo ld) as [li |]; [| reflexivity].
  destruct (py_mul _ _) as [dim |]; [| reflexivity].
  destruct (torch.view_rows li dim) as [v |]; [after_source | reflexivity].
Qed.

(** *** The projection stage *)

Lemma projection_layer m (l : torch.Linear A) src g pre :
  _logits_layer m = Some l ->
  shape src = pre ++ [torch.in_features l] ->
  exists d g2,
    projection m src g = (Ok (mkTensor (pre ++ [torch.out_features l]) d), g2).
Proof.
  intros Hl Hs. unfold projection. rewrite Hl.
  pose proof (dropout_forward_shape (_dropout_layer m) (training m) src g) as Hd.
  destruct (dropout_forward _ _ _ _) as [d g2]; simpl in Hd.
  rewrite (linear_forward_ok l d pre) by congruence.
  eauto.
Qed.

Lemma projection_layer_inv m (l : torch.Linear A) src g logits g2 :
  _logits_layer m = Some l ->
  projection m src g = (Ok logits, g2) ->
  exists pre,
    shape src = pre ++ [torch.in_features l]
    /\ shape logits = pre ++ [torch.out_features l].
Proof.
  intros Hl. unfold projection. rewrite Hl.
  pose proof (dropout_forward_shape (_dropout_layer m) (training m) src g) as Hd.
  destruct (dropout_forward _ _ _ _) as [d g']; simpl in Hd.
  intros [= Hlin <-].
  apply linear_forward_inv in Hlin. destruct Hlin as (pre & Hs & Ho).
  exists pre. split; congruence.
Qed.

Lemma projection_none m src g :
  _logits_layer m = None -> projection m src g = (Ok src, g).
Proof. intros Hl. unfold projection. rewrite Hl. reflexivity. Qed.

(** *** Constructed instances *)

Lemma multiclass_not_binary hp enc init m0 :
  __init__ hp enc init = Ok m0 ->
  1 < HParams.num_classes hp ->
  is_binary m0 = false.
Proof.
  intros Hin Hn. destruct (init_inv _ _ _ _ Hin) as (_ & _ & _ & Hb & _).
  rewrite Hb.
  destruct (Z.eqb_spec (HParams.num_classes hp) 1); [lia |].
  destruct (Z.leb_spec (HParams.num_classes hp) 0); [lia | reflexivity].
Qed.

Lemma init_layer hp enc init m0 :
  __init__ hp enc init = Ok m0 ->
  0 < HParams.num_classes hp ->
  exists l d,
    _logits_layer m0 = Some l
    /\ torch.out_features l = Z.to_nat (HParams.num_classes hp)
    /\ torch.in_features l = Z.to_nat d /\ 0 <= d
    /\ (if String.eqb (HParams.clas_strategy hp) "all_time"
        then py_mul (BERTEncoder.output_size enc)
                    (HParams.max_seq_length hp) = Ok d
        else d = BERTEncoder.output_size enc).
Proof.
  intros Hin Hn.
  destruct (init_inv _ _ _ _ Hin) as (_ & _ & _ & _ & _ & _ & _ & Hl). auto.
Qed.

Lemma init_hparams hp enc init m0 :
  __init__ hp enc init = Ok m0 -> _hparams m0 = hp /\ _encoder m0 = enc.
Proof.
  intros Hin. destruct (init_inv _ _ _ _ Hin) as (? & ? & _). auto.
Qed.

Lemma forward_from_source m inputs sl sg g eo po g1 src :
  BERTEncoder.forward (_encoder m) (training m) inputs sl sg g
    = (Ok (eo, po), g1) ->
  logits_source m inputs eo po = Ok src ->
  fst (forward inputs sl sg (mkState m g))
    = rbind (fst (projection m src g1)) (predictions m).
Proof.
  intros He Hsrc. rewrite forward_stages, He, Hsrc.
  destruct (projection m src g1); reflexivity.
Qed.

(** *** The multiclass branches *)

Lemma predictions_multiclass m logits pre n :
  is_binary m = false ->
  shape logits = pre ++ [S n] ->
  let p0 := mkTensor pre
              (map torch.argmax_row (rows (S n) (numel_of pre) (data logits))) in
  torch.argmax logits = Ok p0
  /\ predictions m logits =
     Ok (logits,
         if String.eqb (HParams.clas_strategy (_hparams m)) "time_wise"
         then p0 else torch.flatten p0).
Proof.
  intros Hb Hs p0. pose proof (argmax_ok logits pre n Hs) as Ha.
  split; [exact Ha |].
  unfold predictions. rewrite Hb, Ha.
  destruct (String.eqb _ "time_wise"); reflexivity.
Qed.

Lemma multiclass_run m (l : torch.Linear A) src g pre n :
  _logits_layer m = Some l ->
  is_binary m = false ->
  torch.out_features l = S n ->
  shape src = pre ++ [torch.in_features l] ->
  exists logits,
    let p0 := mkTensor pre
                (map torch.argmax_row (rows (S n) (numel_of pre) (data logits))) in
    rbind (fst (projection m src g)) (predictions m) =
      Ok (logits,
          if String.eqb (HParams.clas_strategy (_hparams m)) "time_wise"
          then p0 else torch.flatten p0)
    /\ shape logits = pre ++ [S n]
    /\ torch.argmax logits = Ok p0.
Proof.
  intros Hl Hb Ho Hs.
  destruct (projection_layer m l src g pre Hl Hs) as (d & g2 & Hp).
  rewrite Ho in Hp. rewrite Hp. cbn [fst rbind].
  exists (mkTensor (pre ++ [S n]) d).
  destruct (predictions_multiclass m (mkTensor (pre ++ [S n]) d) pre n Hb eq_refl)
    as (Ha & Hpr).
  cbv zeta. rewrite Hpr. auto.
Qed.

(** C1. In multiclass mode ([num_classes > 1]) the returned predictions
    are the argmax of the returned logits along the class axis, whatever
    the strategy.  With [cls_time] and a pooled output of shape [B, F]
    the call returns logits of shape [B, num_classes] and predictions of
    shape [B], the per-row argmax; with [time_wise] and per-token outputs
    of shape [B, T, F] it returns logits of shape [B, T, num_classes] and
    predictions of shape [B, T], the argmax at each (b, t). *)
Theorem forward_multiclass hp enc init m0 mode inputs sl sg g eo po g1 :
  __init__ hp enc init = Ok m0 ->
  1 < HParams.num_classes hp ->
  BERTEncoder.forward enc mode inputs sl sg g = (Ok (eo, po), g1) ->
  let C := Z.to_nat (HParams.num_classes hp) in
  let F := Z.to_nat (BERTEncoder.output_size enc) in
  let out := fst (forward inputs sl sg (mkState (train mode m0) g)) in
  (forall logits preds,
      out = Ok (logits, preds) ->
      exists p0,
        torch.argmax logits = Ok p0 /\ data preds = data p0
        /\ (HParams.clas_strategy hp = "time_wise"
            \/ length (shape logits) = 2%nat -> preds = p0))
  /\ (HParams.clas_strategy hp = "cls_time" ->
      forall B, shape po = [B; F] ->
      exists logits preds,
        out = Ok (logits, preds)
        /\ shape logits = [B; C] /\ shape preds = [B]
        /\ torch.argmax logits = Ok preds
        /\ data preds = map torch.argmax_row (rows C B (data logits)))
  /\ (HParams.clas_strategy hp = "time_wise" ->
      forall B T, shape eo = [B; T; F] ->
      exists logits preds,
        out = Ok (logits, preds)
        /\ shape logits = [B; T; C] /\ shape preds = [B; T]
        /\ torch.argmax logits = Ok preds
        /\ data preds = map torch.argmax_row (rows C (B * T) (data logits))).
Proof.
  intros Hin Hn He C F out.
  destruct (init_hparams _ _ _ _ Hin) as (Hhp & Henc).
  destruct (init_layer _ _ _ _ Hin ltac:(lia)) as (l & d & Hl & Ho & Hi & Hd & Hdim).
  pose proof (multiclass_not_binary _ _ _ _ Hin Hn) as Hb.
  assert (HC : exists n, C = S n).
  { exists (Nat.pred C). subst C. lia. }
  destruct HC as (n & HC). fold C in Ho. rewrite HC in Ho.
  set (m := train mode m0).
  assert (Hout : forall src,
             logits_source m inputs eo po = Ok src ->
             out = rbind (fst (projection m src g1)) (predictions m)).
  { intros src Hsrc. subst out. apply forward_from_source with eo po; [| exact Hsrc].
    subst m; cbn [train _encoder training]. rewrite Henc. exact He. }
  assert (Hstrat : HParams.clas_strategy (_hparams m) = HParams.clas_strategy hp).
  { subst m; cbn [train _hparams]. rewrite Hhp. reflexivity. }
  repeat split.
  - (* every strategy *)
    intros logits preds Hret.
    assert (Hsrc : exists src, logits_source m inputs eo po = Ok src).
    { subst out. rewrite forward_stages in Hret.
      subst m; cbn [train _encoder training] in *. rewrite Henc, He in Hret.
      destruct (logits_source _ inputs eo po) as [src |]; [eauto | discriminate]. }
    destruct Hsrc as (src & Hsrc). rewrite (Hout src Hsrc) in Hret.
    destruct (projection m src g1) as [[lg | e] g2] eqn:Hp; [| discriminate].
    destruct (projection_layer_inv m l src g1 lg g2 Hl Hp) as (pre & _ & Hsl).
    rewrite Ho in Hsl.
    destruct (predictions_multiclass m lg pre n Hb Hsl) as (Ha & Hpr).
    cbn [fst rbind] in Hret. rewrite Hpr in Hret. injection Hret as <- <-.
    eexists; split; [exact Ha |].
    rewrite Hhp.
    destruct (String.eqb_spec (HParams.clas_strategy hp) "time_wise") as [Etw | Etw].
    + split; [reflexivity | intros _; reflexivity].
    + split; [reflexivity |].
      intros [Habs | Hlen]; [contradiction |].
      rewrite Hsl, length_app in Hlen; simpl in Hlen.
      destruct pre as [| b [| ? ?]]; simpl in Hlen; try lia.
      apply flatten_vector.
  - (* cls_time *)
    intros Hs B Hpo.
    assert (Hsrc : logits_source m inputs eo po = Ok po).
    { unfold logits_source. rewrite Hstrat, Hs. reflexivity. }
    destruct (multiclass_run m l po g1 [B] n Hl Hb Ho) as (logits & Hrun & Hsh & Ha).
    { rewrite Hpo, Hi. subst F.
      destruct (String.eqb_spec (HParams.clas_strategy hp) "all_time") as [E | _];
        [rewrite Hs in E; discriminate | subst d; reflexivity]. }
    rewrite Hstrat, Hs in Hrun. cbn [String.eqb Ascii.eqb Bool.eqb] in Hrun.
    rewrite flatten_vector in Hrun.
    eexists; eexists. rewrite (Hout po Hsrc), Hrun, HC.
    split; [reflexivity |]. split; [exact Hsh |]. split; [reflexivity |].
    split; [exact Ha |].
    simpl. rewrite Nat.mul_1_r. reflexivity.
  - (* time_wise *)
    intros Hs B T Heo.
    assert (Hsrc : logits_source m inputs eo po = Ok eo).
    { unfold logits_source. rewrite Hstrat, Hs. reflexivity. }
    destruct (multiclass_run m l eo g1 [B; T] n Hl Hb Ho) as (logits & Hrun & Hsh & Ha).
    { rewrite Heo, Hi. subst F.
      destruct (String.eqb_spec (HParams.clas_strategy hp) "all_time") as [E | _];
        [rewrite Hs in E; discriminate | subst d; reflexivity]. }
    rewrite Hstrat, Hs in Hrun. cbn [String.eqb Ascii.eqb Bool.eqb] in Hrun.
    eexists; eexists. rewrite (Hout eo Hsrc), Hrun, HC.
    split; [reflexivity |]. split; [exact Hsh |]. split; [reflexivity |].
    split; [exact Ha |].
    simpl. rewrite Nat.mul_1_r. reflexivity.
Qed.

(** *** The binary branches *)

Lemma predictions_binary m lg logits preds :
  is_binary m = true ->
  predictions m lg = Ok (logits, preds) ->
  preds = torch.gt0_long logits.
Proof.
  intros Hb. unfold predictions. rewrite Hb.
  destruct (String.eqb _ "time_wise"); intros [= <- <-]; reflexivity.
Qed.

Lemma forward_binary_preds m inputs sl sg g logits preds :
  is_binary m = true ->
  fst (forward inputs sl sg (mkState m g)) = Ok (logits, preds) ->
  preds = torch.gt0_long logits.
Proof.
  intros Hb. rewrite forward_stages.
  destruct (BERTEncoder.forward _ _ _ _ _ _) as [[[eo po] | e] g1];
    [| discriminate].
  destruct (logits_source m inputs eo po) as [src |]; [| discriminate].
  destruct (projection m src g1) as [[lg | e] g2]; [| discriminate].
  cbn [fst rbind]. apply predictions_binary. exact Hb.
Qed.



(** *** The [all_time] strategy *)

(** The logits source of [all_time]: the per-token outputs brought to
    [max_seq_length] time steps, then viewed as one row per sequence. *)
Lemma all_time_source m inputs eo po (B T : nat) (Lz : Z) :
  HParams.clas_strategy (_hparams m) = "all_time" ->
  HParams.max_seq_length (_hparams m) = Some Lz ->
  let osz := BERTEncoder.output_size (_encoder m) in
  shape inputs = [B; T] ->
  shape eo = [B; T; Z.to_nat osz] ->
  (1 <= B)%nat -> 1 <= osz -> 1 <= Lz ->
  exists padded,
    torch.pad_time eo (Lz - Z.of_nat T) = Ok padded
    /\ shape padded = [B; Z.to_nat Lz; Z.to_nat osz]
    /\ logits_source m inputs eo po
       = Ok (mkTensor [B; Z.to_nat (osz * Lz)] (data padded)).
Proof.
  intros Hs Hmax osz Hin Heo HB HF HL.
  assert (Hnt : 0 < Z.of_nat T + (Lz - Z.of_nat T)) by lia.
  pose proof (pad_time_ok eo B T (Z.to_nat osz) (Lz - Z.of_nat T) Heo HB
                ltac:(lia) Hnt) as Hpad.
  cbv zeta in Hpad.
  replace (Z.of_nat T + (Lz - Z.of_nat T)) with Lz in Hpad by lia.
  eexists. split; [exact Hpad |]. split; [reflexivity |].
  unfold logits_source. rewrite Hs, Hmax.
  cbn [String.eqb Ascii.eqb Bool.eqb].
  unfold shape_at. rewrite Hin. cbn [nth_error rbind py_sub py_mul].
  rewrite Hpad. cbn [rbind]. fold osz.
  apply view_rows_ok with (L := Z.to_nat Lz) (F := Z.to_nat osz).
  - reflexivity.
  - lia.
  - rewrite Z2Nat.inj_mul by lia. reflexivity.
Qed.

(** The projection and the predictions go through whenever the last
    dimension of the source fits the layer and the class dimension is
    not empty. *)
Lemma stages_return m src g pre k :
  shape src = pre ++ [k] ->
  match _logits_layer m with
  | Some l => torch.in_features l = k /\ torch.out_features l <> 0%nat
  | None => k <> 0%nat
  end ->
  exists logits preds,
    rbind (fst (projection m src g)) (predictions m) = Ok (logits, preds).
Proof.
  intros Hs Hl.
  assert (Hp : exists lg g2 n,
             projection m src g = (Ok lg, g2) /\ shape lg = pre ++ [S n]).
  { destruct (_logits_layer m) as [l |] eqn:El.
    - destruct Hl as (Hi & Ho).
      destruct (projection_layer m l src g pre El) as (d & g2 & Hp);
        [congruence |].
      exists (mkTensor (pre ++ [torch.out_features l]) d), g2,
             (Nat.pred (torch.out_features l)).
      split; [exact Hp |]. cbn [shape]. do 2 f_equal. lia.
    - exists src, g, (Nat.pred k). split; [apply projection_none; exact El |].
      rewrite Hs. do 2 f_equal. lia. }
  destruct Hp as (lg & g2 & n & Hp & Hsh). rewrite Hp. cbn [fst rbind].
  destruct (is_binary m) eqn:Hb.
  - unfold predictions. rewrite Hb.
    destruct (String.eqb _ "time_wise"); eauto.
  - destruct (predictions_multiclass m lg pre n Hb Hsh) as (_ & Hpr).
    rewrite Hpr. eauto.
Qed.

(** With an input at least as long as [max_seq_length], the logits source
    of [all_time] has one row per sequence: the features of the
    sequence's first [max_seq_length] time steps. *)
Lemma all_time_source_cropped m inputs eo po (B T : nat) (Lz : Z) :
  HParams.clas_strategy (_hparams m) = "all_time" ->
  HParams.max_seq_length (_hparams m) = Some Lz ->
  let osz := BERTEncoder.output_size (_encoder m) in
  let F := Z.to_nat osz in
  let L := Z.to_nat Lz in
  shape inputs = [B; T] ->
  shape eo = [B; T; F] ->
  (1 <= B)%nat -> 1 <= osz -> 1 <= Lz -> Lz <= Z.of_nat T ->
  logits_source m inputs eo po
  = Ok (mkTensor [B; (L * F)%nat]
          (flat_map (firstn (L * F)) (rows (T * F) B (data eo)))).
Proof.
  intros Hs Hmax osz F L Hin Heo HB HF HL HT.
  destruct (all_time_source m inputs eo po B T Lz Hs Hmax Hin Heo HB HF HL)
    as (padded & Hpad & _ & Hsrc).
  rewrite Hsrc. fold osz.
  replace (Z.to_nat (osz * Lz)) with (L * F)%nat
    by (subst L F; rewrite Z2Nat.inj_mul by lia; apply Nat.mul_comm).
  do 2 f_equal.
  assert (Hnt : 0 < Z.of_nat T + (Lz - Z.of_nat T)) by lia.
  rewrite (pad_time_ok eo B T F (Lz - Z.of_nat T) Heo HB ltac:(subst F; lia) Hnt)
    in Hpad.
  injection Hpad as <-. cbn [data].
  replace (Z.of_nat T + (Lz - Z.of_nat T)) with Lz by lia. fold L.
  replace (L - T)%nat with 0%nat by (subst L; lia). cbn [Nat.mul repeat].
  apply flat_map_ext. intros blk. rewrite app_nil_r. reflexivity.
Qed.

(** C4, as amended.  With [all_time] and an input longer than
    [max_seq_length] (itself at least 1, for a non-empty batch) the pad
    length is negative and the padding step keeps the first
    [max_seq_length] time steps of every sequence and drops the others.
    [forward] does not fail: it returns the pair that the projection and
    the derivation of the predictions make of those first steps alone, one
    row of [max_seq_length * F] features per sequence.  So any other call
    whose per-token outputs have the same first [max_seq_length] time
    steps, the already truncated sequences among them, returns the same
    pair from the same generator state. *)
Theorem forward_all_time_longer_input
    hp enc init m0 mode inputs sl sg g eo po g1 (B T : nat) (Lz : Z) :
  __init__ hp enc init = Ok m0 ->
  HParams.clas_strategy hp = "all_time" ->
  HParams.max_seq_length hp = Some Lz ->
  BERTEncoder.forward enc mode inputs sl sg g = (Ok (eo, po), g1) ->
  let F := Z.to_nat (BERTEncoder.output_size enc) in
  let L := Z.to_nat Lz in
  shape inputs = [B; T] ->
  shape eo = [B; T; F] ->
  (1 <= B)%nat -> 1 <= BERTEncoder.output_size enc ->
  1 <= Lz -> Lz < Z.of_nat T ->
  let m := train mode m0 in
  let first_steps := flat_map (firstn (L * F)) (rows (T * F) B (data eo)) in
  torch.pad_time eo (Lz - Z.of_nat T) = Ok (mkTensor [B; L; F] first_steps)
  /\ fst (forward inputs sl sg (mkState m g))
     = rbind (fst (projection m (mkTensor [B; (L * F)%nat] first_steps) g1))
             (predictions m)
  /\ (exists logits preds,
        fst (forward inputs sl sg (mkState m g)) = Ok (logits, preds))
  /\ forall inputs' sl' sg' g' eo' po' (T' : nat),
      BERTEncoder.forward enc mode inputs' sl' sg' g' = (Ok (eo', po'), g1) ->
      shape inputs' = [B; T'] ->
      shape eo' = [B; T'; F] ->
      Lz <= Z.of_nat T' ->
      flat_map (firstn (L * F)) (rows (T' * F) B (data eo')) = first_steps ->
      fst (forward inputs' sl' sg' (mkState m g'))
      = fst (forward inputs sl sg (mkState m g)).
Proof.
  intros Hin Hs Hmax He F L Hinp Heo HB HF HL HT m first_steps.
  destruct (init_hparams _ _ _ _ Hin) as (Hhp & Henc).
  assert (Hms : HParams.clas_strategy (_hparams m) = "all_time")
    by (subst m; cbn [train _hparams]; rewrite Hhp; exact Hs).
  assert (Hmm : HParams.max_seq_length (_hparams m) = Some Lz)
    by (subst m; cbn [train _hparams]; rewrite Hhp; exact Hmax).
  assert (Hme : _encoder m = enc) by exact Henc.
  assert (Hmt : training m = mode) by reflexivity.
  assert (Hcrop := pad_time_crop eo B T F (Lz - Z.of_nat T) Heo HB
                     ltac:(subst F; lia) ltac:(lia) ltac:(lia)).
  cbv zeta in Hcrop.
  replace (Z.of_nat T + (Lz - Z.of_nat T)) with Lz in Hcrop by lia.
  assert (Hcall : forall inputs' sl' sg' g' eo' po' (T' : nat),
             BERTEncoder.forward enc mode inputs' sl' sg' g' = (Ok (eo', po'), g1) ->
             shape inputs' = [B; T'] ->
             shape eo' = [B; T'; F] ->
             Lz <= Z.of_nat T' ->
             fst (forward inputs' sl' sg' (mkState m g'))
             = rbind (fst (projection m
                             (mkTensor [B; (L * F)%nat]
                                (flat_map (firstn (L * F))
                                   (rows (T' * F) B (data eo')))) g1))
                     (predictions m)).
  { intros inputs' sl' sg' g' eo' po' T' He' Hinp' Heo' HT'.
    apply (forward_from_source m inputs' sl' sg' g' eo' po' g1).
    - rewrite Hme, Hmt. exact He'.
    - pose proof (all_time_source_cropped m inputs' eo' po' B T' Lz Hms Hmm)
        as Hc.
      cbv zeta in Hc. rewrite Hme in Hc. apply Hc; assumption. }
  pose proof (Hcall inputs sl sg g eo po T He Hinp Heo ltac:(lia)) as Hrun.
  fold first_steps in Hrun.
  split; [exact Hcrop |]. split; [exact Hrun |]. split.
  - rewrite Hrun.
    apply stages_return with (pre := [B]) (k := (L * F)%nat).
    + reflexivity.
    + change (_logits_layer m) with (_logits_layer m0).
      pose proof (init_inv _ _ _ _ Hin) as Hinv. cbv zeta in Hinv.
      destruct Hinv as (_ & _ & _ & _ & _ & _ & Hnone & Hsome).
      destruct (Z.leb_spec (HParams.num_classes hp) 0) as [Hle | Hgt].
      * rewrite (Hnone Hle). subst L F. nia.
      * destruct (Hsome Hgt) as (l & d & Hl & Ho & Hi & Hd & Hd').
        rewrite Hl. rewrite Hs, Hmax in Hd'. cbn in Hd'.
        injection Hd' as <-. split; [| lia].
        rewrite Hi. subst L F. rewrite Z2Nat.inj_mul by lia. apply Nat.mul_comm.
  - intros inputs' sl' sg' g' eo' po' T' He' Hinp' Heo' HT' Hsame.
    rewrite (Hcall inputs' sl' sg' g' eo' po' T' He' Hinp' Heo' HT'), Hsame.
    symmetry. exact Hrun.
Qed.

(** C3, as amended.  With [cls_time] or [all_time] in multiclass mode the
    prediction of each sequence is the index of its maximal logit, and
    the predictions are a one-dimensional tensor of length [B]; the
    returned logits are not flattened, they keep the shape
    [B, num_classes]. *)
Theorem forward_sequence_multiclass
    hp enc init m0 mode inputs sl sg g eo po g1 (B : nat) :
  __init__ hp enc init = Ok m0 ->
  1 < HParams.num_classes hp ->
  BERTEncoder.forward enc mode inputs sl sg g = (Ok (eo, po), g1) ->
  let C := Z.to_nat (HParams.num_classes hp) in
  let F := Z.to_nat (BERTEncoder.output_size enc) in
  (HParams.clas_strategy hp = "cls_time" /\ shape po = [B; F])
  \/ (HParams.clas_strategy hp = "all_time"
      /\ exists (T : nat) (Lz : Z),
          HParams.max_seq_length hp = Some Lz /\ 1 <= Lz
          /\ shape inputs = [B; T] /\ shape eo = [B; T; F]
          /\ (1 <= B)%nat /\ 1 <= BERTEncoder.output_size enc) ->
  exists logits preds,
    fst (forward inputs sl sg (mkState (train mode m0) g)) = Ok (logits, preds)
    /\ shape logits = [B; C] /\ shape preds = [B]
    /\ torch.argmax logits = Ok preds
    /\ data preds = map torch.argmax_row (rows C B (data logits)).
Proof.
  intros Hin Hn He C F Hcase.
  destruct (init_hparams _ _ _ _ Hin) as (Hhp & Henc).
  destruct (init_layer _ _ _ _ Hin ltac:(lia)) as (l & d & Hl & Ho & Hi & Hd & Hdim).
  pose proof (multiclass_not_binary _ _ _ _ Hin Hn) as Hb.
  assert (HC : exists n, C = S n).
  { exists (Nat.pred C). subst C. lia. }
  destruct HC as (n & HC). fold C in Ho. rewrite HC in Ho.
  set (m := train mode m0).
  assert (Hm : _hparams m = hp /\ _encoder m = enc /\ training m = mode).
  { subst m; cbn [train _hparams _encoder training]. auto. }
  destruct Hm as (Hmh & Hme & Hmt).
  assert (Hnt : String.eqb (HParams.clas_strategy (_hparams m)) "time_wise" = false).
  { rewrite Hmh. destruct Hcase as [(-> & _) | (-> & _)]; reflexivity. }
  assert (Hsrc : exists src,
             logits_source m inputs eo po = Ok src
             /\ shape src = [B] ++ [torch.in_features l]).
  { destruct Hcase as [(Hs & Hpo) | (Hs & T & Lz & Hmax & HL & Hinp & Heo & HB & HF)].
    - exists po. split.
      + unfold logits_source. rewrite Hmh, Hs. reflexivity.
      + rewrite Hs in Hdim. cbn in Hdim. subst d. rewrite Hpo, Hi. reflexivity.
    - destruct (all_time_source m inputs eo po B T Lz)
        as (padded & _ & _ & Hsrc); rewrite ?Hmh, ?Hme; try assumption.
      eexists; split; [exact Hsrc |].
      rewrite Hs, Hmax in Hdim. cbn in Hdim. injection Hdim as <-.
      cbn [shape]. rewrite Hi, Hme. reflexivity. }
  destruct Hsrc as (src & Hsrc & Hshape).
  destruct (multiclass_run m l src g1 [B] n Hl Hb Ho Hshape)
    as (logits & Hrun & Hsh & Ha).
  rewrite Hnt, flatten_vector in Hrun.
  exists logits. eexists.
  rewrite (forward_from_source m inputs sl sg g eo po g1 src
             ltac:(rewrite Hme, Hmt; exact He) Hsrc), Hrun, HC.
  split; [reflexivity |]. split; [exact Hsh |]. split; [reflexivity |].
  split; [exact Ha |].
  simpl. rewrite Nat.mul_1_r. reflexivity.
Qed.

(** *** Unknown strategies *)

Lemma init_ok_not_all_time hp enc init :
  String.eqb (HParams.clas_strategy hp) "all_time" = false ->
  dropout_valid hp = true ->
  kwargs_valid hp = true ->
  0 <= BERTEncoder.output_size enc ->
  exists m0, __init__ hp enc init = Ok m0.
Proof.
  intros Hs Hd Hk Hosz. unfold __init__, torch.nn_Dropout.
  unfold dropout_valid in Hd. apply negb_true_iff in Hd. rewrite Hd.
  cbn [rbind].
  destruct (Z.leb_spec (HParams.num_classes hp) 0) as [Hle | Hgt];
    [cbn [rbind]; eauto |].
  unfold kwargs_valid in Hk. rewrite Hs.
  assert (Hlin : forall kw, is_ok (torch.linear_kwargs kw true) = true ->
             exists l, torch.nn_Linear init (BERTEncoder.output_size enc)
                         (HParams.num_classes hp) kw = Ok l).
  { intros kw Hkw. unfold torch.nn_Linear.
    destruct (torch.linear_kwargs kw true); [| discriminate]. cbn [rbind].
    destruct (Z.ltb_spec (BERTEncoder.output_size enc) 0); [lia |].
    destruct (Z.ltb_spec (HParams.num_classes hp) 0); [lia |].
    cbn [orb]. eauto. }
  destruct (HParams.logit_layer_kwargs hp) as [| kw | v]; [| | discriminate].
  - cbn [rbind]. destruct (Hlin [] eq_refl) as (l & ->). cbn [rbind]. eauto.
  - cbn [rbind]. destruct (Hlin kw Hk) as (l & ->). cbn [rbind]. eauto.
Qed.

(** C6. With a [clas_strategy] outside the three known values the
    constructor succeeds (for a valid dropout rate, valid layer options
    and a non-negative feature size), and no [forward] call returns an
    output: once the encoder has returned, the strategy dispatch raises
    the unknown-strategy [ValueError]. *)
Theorem forward_unknown_strategy hp enc init :
  ~ In (HParams.clas_strategy hp) known_strategies ->
  (dropout_valid hp = true -> kwargs_valid hp = true ->
   0 <= BERTEncoder.output_size enc ->
   exists m0, __init__ hp enc init = Ok m0)
  /\ forall m0 mode inputs sl sg g,
      __init__ hp enc init = Ok m0 ->
      let r := forward inputs sl sg (mkState (train mode m0) g) in
      is_ok (fst r) = false
      /\ forall x g1,
          BERTEncoder.forward enc mode inputs sl sg g = (Ok x, g1) ->
          r = (Raise (ValueError ("Unknown classification strategy: "
                                  ++ HParams.clas_strategy hp)%string),
               mkState (train mode m0) g1).
Proof.
  intros Hs. destruct (unknown_strategy_eqb _ Hs) as (E1 & E2 & E3).
  split.
  - intros Hd Hk Hosz. apply init_ok_not_all_time; assumption.
  - intros m0 mode inputs sl sg g Hin r.
    destruct (init_hparams _ _ _ _ Hin) as (Hhp & Henc).
    assert (Hsrc : forall eo po,
               logits_source (train mode m0) inputs eo po =
               Raise (ValueError ("Unknown classification strategy: "
                                  ++ HParams.clas_strategy hp)%string)).
    { intros eo po. unfold logits_source. cbn [train _hparams].
      rewrite Hhp, E1, E2, E3. reflexivity. }
    subst r. rewrite forward_stages.
    change (_encoder (train mode m0)) with (_encoder m0).
    change (training (train mode m0)) with mode.
    rewrite Henc.
    destruct (BERTEncoder.forward enc mode inputs sl sg g) as [[[eo po] | e] g1].
    + rewrite Hsrc. split; [reflexivity |].
      intros x g1' [= <- <-]. reflexivity.
    + split; [reflexivity |]. intros x g1' [=].
Qed.

(** *** [all_time] without [max_seq_length] *)

(** C7, as amended.  With [all_time], [max_seq_length] unset and
    [num_classes > 0] the constructor fails: computing the input
    dimension of the projection layer multiplies by [None] (unless an
    invalid dropout rate or [logit_layer_kwargs] has raised before).
    With [num_classes <= 0] no layer is built, the constructor succeeds,
    and it is [forward] that never returns. *)
Theorem init_all_time_without_max_seq_length hp enc init :
  HParams.clas_strategy hp = "all_time" ->
  HParams.max_seq_length hp = None ->
  (0 < HParams.num_classes hp ->
   is_ok (__init__ hp enc init) = false
   /\ (dropout_valid hp = true ->
       (forall v, HParams.logit_layer_kwargs hp <> HParams.KwOther v) ->
       __init__ hp enc init =
       Raise (TypeError "unsupported operand type(s) for *: int and NoneType")))
  /\ (HParams.num_classes hp <= 0 ->
      dropout_valid hp = true ->
      exists m0,
        __init__ hp enc init = Ok m0
        /\ forall mode inputs sl sg g,
            is_ok (fst (forward inputs sl sg (mkState (train mode m0) g)))
            = false).
Proof.
  intros Hs Hmax. split.
  - intros Hn. unfold __init__, torch.nn_Dropout, dropout_valid.
    destruct (gt zero (HParams.dropout hp) || gt (HParams.dropout hp) one);
      cbn [rbind negb].
    + split; [reflexivity | discriminate].
    + destruct (Z.leb_spec (HParams.num_classes hp) 0); [lia |].
      rewrite Hs, Hmax. cbn [String.eqb Ascii.eqb Bool.eqb py_mul].
      destruct (HParams.logit_layer_kwargs hp) as [| d | v]; cbn [rbind is_ok].
      * split; reflexivity.
      * split; reflexivity.
      * split; [reflexivity |]. intros _ Hk. destruct (Hk v eq_refl).
  - intros Hn Hd.
    assert (Hin : exists m0, __init__ hp enc init = Ok m0).
    { unfold __init__, torch.nn_Dropout. unfold dropout_valid in Hd.
      apply negb_true_iff in Hd. rewrite Hd. cbn [rbind].
      destruct (Z.leb_spec (HParams.num_classes hp) 0); [| lia].
      cbn [rbind]. eauto. }
    destruct Hin as (m0 & Hin). exists m0. split; [exact Hin |].
    intros mode inputs sl sg g.
    destruct (init_hparams _ _ _ _ Hin) as (Hhp & Henc).
    rewrite forward_stages.
    destruct (BERTEncoder.forward _ _ _ _ _ _) as [[[eo po] | e] g1];
      [| reflexivity].
    unfold logits_source. change (_hparams (train mode m0)) with (_hparams m0).
    rewrite Hhp, Hs, Hmax. cbn [String.eqb Ascii.eqb Bool.eqb].
    destruct (shape_at inputs 1); reflexivity.
Qed.

(** *** [is_binary] *)

Lemma predictions_multiclass_inv m lg logits preds :
  is_binary m = false ->
  predictions m lg = Ok (logits, preds) ->
  exists p0, torch.argmax logits = Ok p0 /\ data preds = data p0.
Proof.
  intros Hb. unfold predictions. rewrite Hb.
  destruct (String.eqb _ "time_wise");
    destruct (torch.argmax lg) as [p0 |] eqn:Ha; cbn [rbind];
    intros [= <- <-]; eauto.
Qed.

(** C9. [is_binary] holds exactly when [num_classes] is 1, or is
    non-positive while the encoder's final dimension is 1.  It is set by
    the constructor and [forward] leaves it (and the whole instance) as
    it is.  It selects the branch that derives the predictions: the
    positivity test when it holds, the argmax when it does not; the
    value of [num_classes] at the time of the call plays no part. *)
Theorem is_binary_invariant hp enc init m0 :
  __init__ hp enc init = Ok m0 ->
  (is_binary m0 = true <->
   HParams.num_classes hp = 1
   \/ (HParams.num_classes hp <= 0 /\ HParams.encoder_dim hp = 1))
  /\ (forall mode inputs sl sg g,
        let s := mkState (train mode m0) g in
        self (snd (forward inputs sl sg s)) = self s
        /\ is_binary (self (snd (forward inputs sl sg s))) = is_binary m0)
  /\ (forall mode inputs sl sg g logits preds,
        fst (forward inputs sl sg (mkState (train mode m0) g))
          = Ok (logits, preds) ->
        if is_binary m0 then preds = torch.gt0_long logits
        else exists p0, torch.argmax logits = Ok p0 /\ data preds = data p0)
  /\ (forall attr hparam mode inputs sl sg g,
        fst (forward inputs sl sg
               (mkState (set_num_classes attr hparam (train mode m0)) g))
        = fst (forward inputs sl sg (mkState (train mode m0) g))).
Proof.
  intros Hin. pose proof (init_inv _ _ _ _ Hin) as Hinv. cbv zeta in Hinv.
  destruct Hinv as (_ & _ & _ & Hbin & _).
  split; [| split; [| split]].
  - rewrite Hbin, orb_true_iff, andb_true_iff, Z.eqb_eq, Z.leb_le, Z.eqb_eq.
    reflexivity.
  - intros mode inputs sl sg g s.
    pose proof (forward_keeps_self inputs sl sg s) as Hk.
    split; [exact Hk |]. rewrite Hk. reflexivity.
  - intros mode inputs sl sg g logits preds Hret.
    destruct (is_binary m0) eqn:Hb.
    + apply (forward_binary_preds (train mode m0)) in Hret; assumption.
    + rewrite forward_stages in Hret.
      destruct (BERTEncoder.forward _ _ _ _ _ _) as [[[eo po] | e] g1];
        [| discriminate].
      destruct (logits_source _ inputs eo po) as [src |]; [| discriminate].
      destruct (projection _ src g1) as [[lg | e] g2]; [| discriminate].
      cbn [fst rbind] in Hret.
      apply predictions_multiclass_inv in Hret; assumption.
  - intros attr hparam mode inputs sl sg g.
    rewrite !forward_stages.
    change (_encoder (set_num_classes attr hparam (train mode m0)))
      with (_encoder (train mode m0)).
    change (training (set_num_classes attr hparam (train mode m0)))
      with (training (train mode m0)).
    destruct (BERTEncoder.forward _ _ _ _ _ _) as [[[eo po] | e] g1];
      [| reflexivity].
    change (logits_source (set_num_classes attr hparam (train mode m0)) inputs eo po)
      with (logits_source (train mode m0) inputs eo po).
    destruct (logits_source _ inputs eo po) as [src |]; [| reflexivity].
    change (projection (set_num_classes attr hparam (train mode m0)) src g1)
      with (projection (train mode m0) src g1).
    destruct (projection _ src g1) as [r g2]. cbn [fst].
    destruct r as [lg |]; reflexivity.
Qed.

(** *** Determinism *)

Lemma projection_eval m src g :
  training m = false ->
  projection m src g =
  (match _logits_layer m with
   | Some layer => torch.linear_forward layer src
   | None => Ok src
   end, g).
Proof.
  intros Ht. unfold projection. rewrite Ht.
  destruct (_logits_layer m); reflexivity.
Qed.

Lemma forward_eval_generator m inputs sl sg g g' :
  training m = false ->
  fst (BERTEncoder.forward (_encoder m) false inputs sl sg g)
    = fst (BERTEncoder.forward (_encoder m) false inputs sl sg g') ->
  fst (forward inputs sl sg (mkState m g))
    = fst (forward inputs sl sg (mkState m g')).
Proof.
  intros Ht He. rewrite !forward_stages, Ht.
  destruct (BERTEncoder.forward _ _ _ _ _ g) as [r1 g1].
  destruct (BERTEncoder.forward _ _ _ _ _ g') as [r2 g2].
  cbn [fst] in He. subst r2.
  destruct r1 as [[eo po] | e]; [| reflexivity].
  destruct (logits_source m inputs eo po) as [src |]; [| reflexivity].
  rewrite !projection_eval by exact Ht. reflexivity.
Qed.

(** C5, as amended.  In evaluation mode, where dropout is the identity,
    and with an encoder whose evaluation-mode result does not depend on
    the generator, a second [forward] call on the same inputs returns
    the same logits and the same predictions as the first. *)
Theorem forward_deterministic_eval inputs sl sg (s : State A) :
  training (self s) = false ->
  (forall g g',
      fst (BERTEncoder.forward (_encoder (self s)) false inputs sl sg g)
      = fst (BERTEncoder.forward (_encoder (self s)) false inputs sl sg g')) ->
  let first := forward inputs sl sg s in
  let second := forward inputs sl sg (snd first) in
  fst second = fst first.
Proof.
  intros Ht He first second. subst second.
  pose proof (forward_keeps_self inputs sl sg s) as Hk. fold first in Hk.
  destruct (snd first) as [m' g'] eqn:Es. cbn [self] in Hk. subst m'.
  subst first. destruct s as [m g]. cbn [self] in *.
  apply forward_eval_generator; [exact Ht | apply He].
Qed.

End Properties.

(** * The properties on concrete inputs *)

Section Witnesses.
Import Sample.
Local Open Scope list_scope.

(** C1 on the two-class [cls_time] instance, in training mode. *)
Lemma forward_multiclass_witness :
  exists logits preds,
    run (build two_class) keep_all = Ok (logits, preds)
    /\ shape logits = [2%nat; 2%nat] /\ shape preds = [2%nat]
    /\ torch.argmax logits = Ok preds.
Proof.
  assert (Hinit : BERTClassifier.__init__ two_class encoder init
                  = Ok (build two_class)) by reflexivity.
  destruct (forward_multiclass two_class encoder init (build two_class) true
              inputs None None keep_all enc_outputs pooled_output keep_all
              Hinit ltac:(simpl; lia) eq_refl)
    as (_ & Hcls & _).
  destruct (Hcls eq_refl 2%nat eq_refl)
    as (logits & preds & Hout & Hl & Hp & Ha & _).
  exists logits, preds. repeat split; assumption.
Defined.


(** C3, as amended, on the [all_time] instance padded from three to four
    time steps. *)
Lemma forward_sequence_multiclass_witness :
  exists logits preds,
    run (build all_time_padded) keep_all = Ok (logits, preds)
    /\ shape logits = [2%nat; 2%nat] /\ shape preds = [2%nat].
Proof.
  assert (Hinit : BERTClassifier.__init__ all_time_padded encoder init
                  = Ok (build all_time_padded)) by reflexivity.
  destruct (forward_sequence_multiclass all_time_padded encoder init
              (build all_time_padded) true inputs None None keep_all
              enc_outputs pooled_output keep_all 2%nat
              Hinit ltac:(simpl; lia) eq_refl)
    as (logits & preds & Hout & Hl & Hp & _).
  - right. split; [reflexivity |]. exists 3%nat, 4.
    repeat split; simpl; try reflexivity; lia.
  - exists logits, preds. repeat split; assumption.
Defined.

(** C3 as stated fails: with [cls_time] and two classes the returned
    logits of a batch of two have shape [2, 2]; they are not a
    one-dimensional tensor of length 2. *)
Lemma logits_not_flattened_counterexample :
  exists logits preds,
    run (build two_class) keep_all = Ok (logits, preds)
    /\ shape logits = [2%nat; 2%nat]
    /\ shape logits <> [2%nat]
    /\ shape preds = [2%nat].
Proof.
  do 2 eexists. split; [reflexivity |]. split; [reflexivity |].
  split; [discriminate | reflexivity].
Defined.

(** C4, as amended, on three time steps with [max_seq_length = 2]: the
    call returns, and it returns what the call on the sequences cut to
    two time steps returns. *)
Lemma forward_all_time_longer_input_witness :
  (exists logits preds,
      run (BERTClassifier.train true (build all_time_short)) keep_all
      = Ok (logits, preds))
  /\ fst (BERTClassifier.forward MoreSamples.truncated_inputs None None
            (BERTClassifier.mkState
               (BERTClassifier.train true (build all_time_short)) keep_all))
     = run (BERTClassifier.train true (build all_time_short)) keep_all.
Proof.
  assert (Hinit : BERTClassifier.__init__ all_time_short encoder init
                  = Ok (build all_time_short)) by reflexivity.
  assert (Hs : HParams.clas_strategy all_time_short = "all_time")
    by reflexivity.
  assert (Hmax : HParams.max_seq_length all_time_short = Some 2)
    by reflexivity.
  assert (He : BERTEncoder.forward encoder true inputs None None keep_all
               = (Ok (enc_outputs, pooled_output), keep_all)) by reflexivity.
  assert (Hinp : shape inputs = [2%nat; 3%nat]) by reflexivity.
  assert (Heo : shape enc_outputs
                = [2%nat; 3%nat; Z.to_nat (BERTEncoder.output_size encoder)])
    by reflexivity.
  assert (HB : (1 <= 2)%nat) by lia.
  assert (HF : 1 <= BERTEncoder.output_size encoder) by (cbn; lia).
  assert (HL : 1 <= 2) by lia.
  assert (HT : 2 < Z.of_nat 3) by lia.
  destruct (forward_all_time_longer_input all_time_short encoder init
              (build all_time_short) true inputs None None keep_all
              enc_outputs pooled_output keep_all 2%nat 3%nat 2
              Hinit Hs Hmax He Hinp Heo HB HF HL HT)
    as (_ & _ & Hret & Hsame).
  split; [exact Hret |].
  assert (He' : BERTEncoder.forward encoder true MoreSamples.truncated_inputs
                  None None keep_all
                = (Ok (MoreSamples.truncated_outputs, pooled_output), keep_all))
    by reflexivity.
  assert (HT' : 2 <= Z.of_nat 2) by lia.
  apply (Hsame MoreSamples.truncated_inputs None None keep_all
           MoreSamples.truncated_outputs pooled_output 2%nat
           He' eq_refl eq_refl HT').
  vm_compute. reflexivity.
Defined.

(** C4 as stated fails: with [all_time], [max_seq_length = 2] and inputs
    of three time steps, [forward] returns a pair. *)
Lemma all_time_longer_input_counterexample :
  HParams.clas_strategy all_time_short = "all_time"
  /\ HParams.max_seq_length all_time_short = Some 2
  /\ shape inputs = [2%nat; 3%nat]
  /\ run (build all_time_short) keep_all
     = Ok (mkTensor [2%nat; 2%nat] [10 # 3; 41 # 9; 10 # 3; 41 # 9]%Q,
           mkTensor [2%nat] [1; 1]).
Proof. repeat split; vm_compute; reflexivity. Defined.

(** C5, as amended, on the instance with dropout rate 1/2 put in
    evaluation mode. *)
Lemma forward_deterministic_eval_witness :
  let s := BERTClassifier.mkState (BERTClassifier.eval (build half_dropout))
             fading in
  fst (BERTClassifier.forward inputs None None
         (snd (BERTClassifier.forward inputs None None s)))
  = fst (BERTClassifier.forward inputs None None s).
Proof.
  apply (forward_deterministic_eval inputs None None
           (BERTClassifier.mkState (BERTClassifier.eval (build half_dropout))
              fading)).
  - reflexivity.
  - intros g g'. reflexivity.
Defined.

(** C5 as stated fails: in training mode the dropout mask is drawn anew
    at each call.  With rate 1/2 and a generator that keeps its first
    four draws only, two calls on the same inputs return different
    logits and different predictions. *)
Lemma forward_training_counterexample :
  let s := BERTClassifier.mkState (build half_dropout) fading in
  let first := BERTClassifier.forward inputs None None s in
  let second := BERTClassifier.forward inputs None None (snd first) in
  fst first = Ok (mkTensor [2%nat; 2%nat] [-2 # 1; -1 # 1; 8 # 1; 9 # 1]%Q,
                  mkTensor [2%nat] [1; 1])
  /\ fst second = Ok (mkTensor [2%nat; 2%nat] [0 # 1; -1 # 1; 0 # 1; -1 # 1]%Q,
                      mkTensor [2%nat] [0; 0])
  /\ fst second <> fst first.
Proof.
  split; [vm_compute; reflexivity |].
  split; [vm_compute; reflexivity |].
  vm_compute. discriminate.
Defined.

(** C6 on the strategy [mean_time]. *)
Lemma forward_unknown_strategy_witness :
  (exists m0, BERTClassifier.__init__ unknown encoder init = Ok m0)
  /\ run (build unknown) keep_all
     = Raise (ValueError "Unknown classification strategy: mean_time").
Proof.
  assert (Hs : ~ In (HParams.clas_strategy unknown) known_strategies).
  { simpl. intros [E | [E | [E | []]]]; discriminate. }
  destruct (forward_unknown_strategy unknown encoder init Hs) as (Hok & Hfw).
  split.
  - apply Hok; [reflexivity | reflexivity | simpl; lia].
  - assert (Hinit : BERTClassifier.__init__ unknown encoder init
                    = Ok (build unknown)) by reflexivity.
    destruct (Hfw (build unknown) true inputs None None keep_all Hinit)
      as (_ & Hr).
    specialize (Hr (enc_outputs, pooled_output) keep_all eq_refl).
    unfold run. change (build unknown) with (BERTClassifier.train true (build unknown)) at 1.
    rewrite Hr. reflexivity.
Defined.

(** C7, as amended, with two classes. *)
Lemma init_all_time_without_max_seq_length_witness :
  BERTClassifier.__init__ all_time_unset encoder init
  = Raise (TypeError "unsupported operand type(s) for *: int and NoneType").
Proof.
  destruct (init_all_time_without_max_seq_length all_time_unset encoder init
              eq_refl eq_refl) as (Hpos & _).
  destruct (Hpos ltac:(simpl; lia)) as (_ & Herr).
  apply Herr; [reflexivity | intros v; discriminate].
Defined.

(** C7 as stated fails: with [all_time], [max_seq_length] unset and
    [num_classes = 0] the constructor succeeds. *)
Lemma init_all_time_no_layer_counterexample :
  HParams.clas_strategy all_time_unset_no_layer = "all_time"
  /\ HParams.max_seq_length all_time_unset_no_layer = None
  /\ is_ok (BERTClassifier.__init__ all_time_unset_no_layer encoder init) = true
  /\ run (build all_time_unset_no_layer) keep_all
     = Raise (TypeError "unsupported operand type(s) for -: NoneType and int").
Proof. repeat split; reflexivity. Defined.

(** C8 for five classes, one class and no class. *)
Lemma output_size_known_strategy_witness :
  BERTClassifier.output_size (build five_class) = Ok 5
  /\ BERTClassifier.output_size (build binary) = Ok 1
  /\ BERTClassifier.output_size (build (hparams 0 "cls_time" None (1 # 10)))
     = Raise (NameError "logit_dim cannot be defined if self._hparams.num_classes < 1").
Proof.
  split; [| split].
  - apply (output_size_known_strategy (build five_class)).
    + simpl; auto.
    + simpl; lia.
  - apply (output_size_known_strategy (build binary)).
    + simpl; auto.
    + reflexivity.
  - apply (output_size_known_strategy (build (hparams 0 "cls_time" None (1 # 10)))).
    + simpl; auto.
    + simpl; lia.
Defined.

(** C9 on the one-class instance. *)
Lemma is_binary_invariant_witness :
  BERTClassifier.is_binary (build binary) = true.
Proof.
  assert (Hinit : BERTClassifier.__init__ binary encoder init
                  = Ok (build binary)) by reflexivity.
  apply (proj1 (is_binary_invariant binary encoder init (build binary) Hinit)).
  left. reflexivity.
Defined.

(** C10 on the strategy [mean_time]. *)
Lemma output_size_unknown_strategy_witness :
  BERTClassifier.output_size (build unknown)
  = Raise (UnboundLocalError "logit_dim").
Proof.
  apply (output_size_unknown_strategy (build unknown)).
  - simpl; lia.
  - simpl. intros [E | [E | [E | []]]]; discriminate.
Defined.

End Witnesses.

(** * Further properties of the classifier *)

Section Coverage.
Context {A : Type} `{Scalar A}.

Import BERTClassifier.
Local Open Scope list_scope.

Implicit Types (m : BERTClassifier.t A) (hp : HParams.t A)
  (enc : BERTEncoder.t A) (init : torch.LinearInit A).

(** ** Rows of a row-major buffer *)

Lemma rows_length {X} (n c : nat) (l : list X) : length (rows n c l) = c.
Proof. unfold rows. rewrite length_map, length_seq. reflexivity. Qed.

Lemma rows_S {X} (n c : nat) (l : list X) :
  rows n (S c) l = firstn n l :: rows n c (skipn n l).
Proof.
  unfold rows. cbn [seq map]. rewrite Nat.mul_0_l. cbn [skipn]. f_equal.
  rewrite <- seq_shift, map_map. apply map_ext. intros r.
  rewrite skipn_skipn. do 2 f_equal. lia.
Qed.

Lemma rows_row_length {X} (n c : nat) (l : list X) :
  length l = (c * n)%nat ->
  forall row, In row (rows n c l) -> length row = n.
Proof.
  revert l. induction c as [| c IH]; intros l Hl row Hin.
  - destruct Hin.
  - rewrite rows_S in Hin. destruct Hin as [<- | Hin].
    + rewrite length_firstn. lia.
    + apply (IH (skipn n l)); [| exact Hin]. rewrite length_skipn. lia.
Qed.

Lemma rows_short {X} (n c : nat) (l : list X) :
  forall row, In row (rows n c l) -> (length row <= n)%nat.
Proof.
  unfold rows. intros row Hin. apply in_map_iff in Hin.
  destruct Hin as (r & <- & _). rewrite length_firstn. lia.
Qed.

Lemma concat_rows {X} (n c : nat) (l : list X) :
  length l = (c * n)%nat -> concat (rows n c l) = l.
Proof.
  revert l. induction c as [| c IH]; intros l Hl.
  - destruct l; [reflexivity | discriminate].
  - rewrite rows_S. cbn [concat]. rewrite IH.
    + apply firstn_skipn.
    + rewrite length_skipn. lia.
Qed.

Lemma rows_concat {X} (n : nat) (bs : list (list X)) :
  (forall b, In b bs -> length b = n) ->
  rows n (length bs) (concat bs) = bs.
Proof.
  induction bs as [| b bs IH]; intros Hb.
  - reflexivity.
  - cbn [length concat]. rewrite rows_S.
    assert (Hlen : length b = n) by (apply Hb; left; reflexivity).
    rewrite firstn_app, <- Hlen, Nat.sub_diag, firstn_all, firstn_O, app_nil_r.
    rewrite skipn_app, Nat.sub_diag, skipn_all, skipn_O. cbn [app].
    rewrite Hlen. f_equal. apply IH. intros b' Hin. apply Hb. right. exact Hin.
Qed.

Lemma length_concat_blocks {X} (n : nat) (bs : list (list X)) :
  (forall b, In b bs -> length b = n) ->
  length (concat bs) = (length bs * n)%nat.
Proof.
  induction bs as [| b bs IH]; intros Hb; [reflexivity |].
  cbn [concat length]. rewrite length_app, IH.
  - rewrite (Hb b) by (left; reflexivity). lia.
  - intros b' Hin. apply Hb. right. exact Hin.
Qed.

(** ** Dictionaries *)

Lemma dict_get_set_same k v (d : PyDict) : dict_get k (dict_set k v d) = Some v.
Proof.
  induction d as [| [k' v'] d IH]; cbn [dict_set dict_get].
  - rewrite String.eqb_refl. reflexivity.
  - destruct (String.eqb_spec k k') as [-> | Hne]; cbn [dict_get].
    + rewrite String.eqb_refl. reflexivity.
    + destruct (String.eqb_spec k k'); [contradiction | exact IH].
Qed.

Lemma dict_get_set_other k k' v (d : PyDict) :
  k <> k' -> dict_get k (dict_set k' v d) = dict_get k d.
Proof.
  intros Hne. induction d as [| [k0 v0] d IH]; cbn [dict_set dict_get].
  - destruct (String.eqb_spec k k'); [contradiction | reflexivity].
  - destruct (String.eqb_spec k' k0) as [-> | Hne0]; cbn [dict_get].
    + destruct (String.eqb_spec k k0); [contradiction | reflexivity].
    + rewrite IH. reflexivity.
Qed.

Lemma dict_update_other k (other d : PyDict) :
  ~ In k (map fst other) -> dict_get k (dict_update d other) = dict_get k d.
Proof.
  unfold dict_update. revert d.
  induction other as [| [k' v'] other IH]; intros d Hk; cbn [fold_left fst snd].
  - reflexivity.
  - rewrite IH.
    + apply dict_get_set_other. intros ->. apply Hk. left. reflexivity.
    + intros Habs. apply Hk. right. exact Habs.
Qed.

Lemma dict_update_in k v (other d : PyDict) :
  NoDup (map fst other) -> In (k, v) other ->
  dict_get k (dict_update d other) = Some v.
Proof.
  unfold dict_update. revert d.
  induction other as [| [k' v'] other IH]; intros d Hnd Hin; [destruct Hin |].
  cbn [map fst] in Hnd. inversion Hnd as [| ? ? Hnotin Hnd']; subst.
  cbn [fold_left fst snd]. destruct Hin as [[= -> ->] | Hin].
  - fold (dict_update (dict_set k v d) other).
    rewrite dict_update_other by exact Hnotin. apply dict_get_set_same.
  - apply IH; assumption.
Qed.

Lemma dict_set_keys k v (d : PyDict) :
  map fst (dict_set k v d)
  = map fst d ++ (if in_dec string_dec k (map fst d) then [] else [k]).
Proof.
  induction d as [| [k' v'] d IH]; cbn [dict_set map fst app].
  - destruct (in_dec string_dec k []) as [[] | _]. reflexivity.
  - destruct (String.eqb_spec k k') as [-> | Hne]; cbn [map fst].
    + destruct (in_dec string_dec k' (k' :: map fst d)) as [_ | Hn].
      * rewrite app_nil_r. reflexivity.
      * exfalso. apply Hn. left. reflexivity.
    + rewrite IH. cbn [app]. f_equal. f_equal.
      destruct (in_dec string_dec k (map fst d)) as [Hi | Hn];
        destruct (in_dec string_dec k (k' :: map fst d)) as [Hi' | Hn'];
        try reflexivity.
      * exfalso. apply Hn'. right. exact Hi.
      * exfalso. destruct Hi' as [E | Hi']; [congruence | contradiction].
Qed.

Lemma dict_update_keys (other d : PyDict) :
  exists added,
    map fst (dict_update d other) = map fst d ++ added
    /\ NoDup added
    /\ forall k, In k added <-> In k (map fst other) /\ ~ In k (map fst d).
Proof.
  unfold dict_update. revert d.
  induction other as [| [k v] other IH]; intros d; cbn [fold_left fst snd map].
  - exists []. rewrite app_nil_r. split; [reflexivity |]. split; [constructor |].
    intros k. split; [intros [] | intros [[] _]].
  - destruct (IH (dict_set k v d)) as (added & Hkeys & Hnd & Hin).
    rewrite dict_set_keys in Hkeys, Hin.
    destruct (in_dec string_dec k (map fst d)) as [Hi | Hn].
    + rewrite app_nil_r in Hkeys, Hin. exists added.
      split; [exact Hkeys |]. split; [exact Hnd |].
      intros k0. rewrite Hin. split.
      * intros (H1 & H2). split; [right; exact H1 | exact H2].
      * intros ([<- | H1] & H2); [contradiction | auto].
    + exists (k :: added). rewrite <- app_assoc in Hkeys. cbn [app] in Hkeys.
      split; [exact Hkeys |]. split.
      * constructor; [| exact Hnd]. intros Habs. apply Hin in Habs.
        destruct Habs as (_ & Habs). apply Habs, in_or_app. right. left. reflexivity.
      * intros k0. cbn [In]. rewrite Hin. split.
        -- intros [<- | (H1 & H2)].
           ++ split; [left; reflexivity | exact Hn].
           ++ split; [right; exact H1 |].
              intros Habs. apply H2, in_or_app. left. exact Habs.
        -- intros ([<- | H1] & H2); [left; reflexivity |].
           destruct (string_dec k k0) as [<- | Hne]; [left; reflexivity |].
           right. split; [exact H1 |].
           intros Habs. apply in_app_or in Habs.
           destruct Habs as [Habs | [Habs | []]]; [contradiction | congruence].
Qed.

Lemma classifier_defaults_keys :
  NoDup (map fst classifier_defaults).
Proof.
  cbn. repeat constructor; cbn; intros Hin;
    repeat (destruct Hin as [Hin | Hin]; [discriminate |]); exact Hin.
Qed.

(** X1. Whatever the encoder's defaults are, the classifier's defaults
    give its six own hyperparameters the documented values; in particular
    [name] is [bert_classifier], not the encoder's name. *)
Theorem default_hparams_own_values (encoder_defaults : PyDict) :
  let d := default_hparams encoder_defaults in
  dict_get "num_classes" d = Some (HPInt 2)
  /\ dict_get "logit_layer_kwargs" d = Some HPNone
  /\ dict_get "clas_strategy" d = Some (HPStr "cls_time")
  /\ dict_get "max_seq_length" d = Some HPNone
  /\ dict_get "dropout" d = Some (HPFloat (1 # 10))
  /\ dict_get "name" d = Some (HPStr "bert_classifier").
Proof.
  cbv zeta. unfold default_hparams.
  repeat split;
    apply dict_update_in; try apply classifier_defaults_keys; cbn; tauto.
Qed.

(** X2. Every hyperparameter of the encoder other than those six keeps
    the encoder's default value, and one the encoder does not define stays
    undefined. *)
Theorem default_hparams_keeps_encoder (encoder_defaults : PyDict) (k : string) :
  ~ In k (map fst classifier_defaults) ->
  dict_get k (default_hparams encoder_defaults) = dict_get k encoder_defaults.
Proof. intros Hk. apply dict_update_other. exact Hk. Qed.

(** X3. The keys of the classifier's defaults are the encoder's keys, in
    the encoder's order, followed by those of the six that the encoder
    does not define; a dictionary without repeated keys stays one. *)
Theorem default_hparams_keys (encoder_defaults : PyDict) :
  (exists added,
      map fst (default_hparams encoder_defaults)
      = map fst encoder_defaults ++ added
      /\ forall k, In k added <->
                   In k (map fst classifier_defaults)
                   /\ ~ In k (map fst encoder_defaults))
  /\ (NoDup (map fst encoder_defaults) ->
      NoDup (map fst (default_hparams encoder_defaults))).
Proof.
  destruct (dict_update_keys classifier_defaults encoder_defaults)
    as (added & Hkeys & Hnd & Hin).
  split.
  - exists added. split; assumption.
  - intros Hd. unfold default_hparams. rewrite Hkeys.
    apply NoDup_app; [exact Hd | exact Hnd |].
    intros k Hk Hk'. apply Hin in Hk'. destruct Hk' as (_ & Hk'). contradiction.
Qed.

(** ** More on [__init__] *)

(** X4. The constructor succeeds exactly when the dropout rate lies in
    [0, 1] and, if a projection layer is to be built ([num_classes > 0]),
    [logit_layer_kwargs] is [None] or a mapping the layer accepts and the
    layer's input size is a non-negative number: the encoder's size, or,
    for [all_time], its product with a [max_seq_length] that is set. *)
Theorem init_succeeds_iff hp enc init :
  is_ok (__init__ hp enc init) = true
  <-> dropout_valid hp = true
      /\ (HParams.num_classes hp <= 0
          \/ (kwargs_valid hp = true
              /\ if String.eqb (HParams.clas_strategy hp) "all_time"
                 then exists L, HParams.max_seq_length hp = Some L
                                /\ 0 <= BERTEncoder.output_size enc * L
                 else 0 <= BERTEncoder.output_size enc)).
Proof.
  unfold __init__, torch.nn_Dropout, dropout_valid, kwargs_valid, torch.nn_Linear.
  destruct (gt zero (HParams.dropout hp) || gt (HParams.dropout hp) one);
    cbn [rbind negb is_ok].
  { split; [discriminate | intros (? & _); discriminate]. }
  destruct (Z.leb_spec (HParams.num_classes hp) 0) as [Hle | Hgt]; cbn [rbind is_ok].
  { split; auto. }
  destruct (Z.ltb_spec (HParams.num_classes hp) 0) as [| _]; [lia |].
  destruct (HParams.logit_layer_kwargs hp) as [| kw | v]; cbn [rbind is_ok].
  - cbn [torch.linear_kwargs rbind].
    destruct (String.eqb (HParams.clas_strategy hp) "all_time").
    + destruct (HParams.max_seq_length hp) as [L |]; cbn [py_mul rbind is_ok].
      * destruct (Z.ltb_spec (BERTEncoder.output_size enc * L) 0);
          cbn [orb rbind is_ok]; split.
        -- discriminate.
        -- intros (_ & [Hn | (_ & L' & [= <-] & Hd)]); lia.
        -- intros _. split; [reflexivity |]. right. split; [reflexivity |].
           exists L. auto.
        -- reflexivity.
      * split; [discriminate |].
        intros (_ & [Hn | (_ & L' & [=] & _)]). lia.
    + destruct (Z.ltb_spec (BERTEncoder.output_size enc) 0);
        cbn [orb rbind is_ok]; split.
      * discriminate.
      * intros (_ & [Hn | (_ & Hd)]); lia.
      * auto.
      * reflexivity.
  - destruct (String.eqb (HParams.clas_strategy hp) "all_time").
    + destruct (HParams.max_seq_length hp) as [L |]; cbn [py_mul rbind is_ok].
      * destruct (torch.linear_kwargs kw true) as [b |]; cbn [rbind is_ok].
        -- destruct (Z.ltb_spec (BERTEncoder.output_size enc * L) 0);
             cbn [orb rbind is_ok]; split.
           ++ discriminate.
           ++ intros (_ & [Hn | (_ & L' & [= <-] & Hd)]); lia.
           ++ intros _. split; [reflexivity |]. right. split; [reflexivity |].
              exists L. auto.
           ++ reflexivity.
        -- split; [discriminate |].
           intros (_ & [Hn | (Hk & _)]); [lia | discriminate].
      * split; [discriminate |].
        intros (_ & [Hn | (_ & L' & [=] & _)]). lia.
    + destruct (torch.linear_kwargs kw true) as [b |]; cbn [rbind is_ok].
      * destruct (Z.ltb_spec (BERTEncoder.output_size enc) 0);
          cbn [orb rbind is_ok]; split.
        -- discriminate.
        -- intros (_ & [Hn | (_ & Hd)]); lia.
        -- auto.
        -- reflexivity.
      * split; [discriminate |].
        intros (_ & [Hn | (Hk & _)]); [lia | discriminate].
  - split; [discriminate |].
    intros (_ & [Hn | (Hk & _)]); [lia | discriminate].
Qed.

(** X5. A [logit_layer_kwargs] that is neither [None] nor a mapping makes
    the constructor raise its "must be a dict" [ValueError] when a layer
    is to be built, before the input size is computed; when
    [num_classes <= 0] that hyperparameter, the strategy and
    [max_seq_length] are not looked at, and the instance has no layer. *)
Theorem init_logit_layer_kwargs hp enc init :
  dropout_valid hp = true ->
  (0 < HParams.num_classes hp ->
   forall v, HParams.logit_layer_kwargs hp = HParams.KwOther v ->
   __init__ hp enc init
   = Raise (ValueError "hparams['logit_layer_kwargs'] must be a dict."))
  /\ (HParams.num_classes hp <= 0 ->
      exists m0, __init__ hp enc init = Ok m0 /\ _logits_layer m0 = None).
Proof.
  intros Hd. unfold __init__, torch.nn_Dropout. unfold dropout_valid in Hd.
  apply negb_true_iff in Hd. rewrite Hd. cbn [rbind]. split.
  - intros Hn v Hv. destruct (Z.leb_spec (HParams.num_classes hp) 0); [lia |].
    rewrite Hv. reflexivity.
  - intros Hn. destruct (Z.leb_spec (HParams.num_classes hp) 0); [| lia].
    cbn [rbind]. eexists. split; reflexivity.
Qed.

Lemma nn_Linear_fields init (in_f out_f : Z) kwargs (l : torch.Linear A) :
  torch.nn_Linear init in_f out_f kwargs = Ok l ->
  torch.weight l = torch.init_weight init
  /\ exists use_bias,
      torch.linear_kwargs kwargs true = Ok use_bias
      /\ torch.bias l = if use_bias then Some (torch.init_bias init) else None.
Proof.
  unfold torch.nn_Linear, rbind.
  destruct (torch.linear_kwargs kwargs true) as [b |]; [| discriminate].
  destruct ((in_f <? 0) || (out_f <? 0)); [discriminate |].
  intros [= <-]. cbn. eauto.
Qed.

(** X6. What a successful construction leaves in the instance: the mode
    flag is on, [num_classes] is the hyperparameter, and there is a
    projection layer exactly when [num_classes > 0]; that layer maps the
    encoder's size (times [max_seq_length] for [all_time]) to
    [num_classes] outputs, carries the initial weights, and has a bias
    when [logit_layer_kwargs] is [None]. *)
Theorem init_layer_shape hp enc init m0 :
  __init__ hp enc init = Ok m0 ->
  training m0 = true
  /\ num_classes m0 = HParams.num_classes hp
  /\ (_logits_layer m0 = None <-> HParams.num_classes hp <= 0)
  /\ forall l,
      _logits_layer m0 = Some l ->
      torch.out_features l = Z.to_nat (HParams.num_classes hp)
      /\ (if String.eqb (HParams.clas_strategy hp) "all_time"
          then exists L, HParams.max_seq_length hp = Some L
                         /\ torch.in_features l
                            = Z.to_nat (BERTEncoder.output_size enc * L)
          else torch.in_features l = Z.to_nat (BERTEncoder.output_size enc))
      /\ torch.weight l = torch.init_weight init
      /\ (HParams.logit_layer_kwargs hp = HParams.KwNone ->
          torch.bias l = Some (torch.init_bias init)).
Proof.
  intros Hin. pose proof (init_inv _ _ _ _ Hin) as Hinv. cbv zeta in Hinv.
  destruct Hinv as (_ & _ & Hnc & _ & Htr & _ & Hnone & Hsome).
  split; [exact Htr |]. split; [exact Hnc |]. split.
  - split; [| exact Hnone]. intros Hl.
    destruct (Z.leb_spec (HParams.num_classes hp) 0) as [| Hgt]; [assumption |].
    destruct (Hsome Hgt) as (l & d & Hl' & _). congruence.
  - intros l Hl.
    destruct (Z.leb_spec (HParams.num_classes hp) 0) as [Hle | Hgt];
      [rewrite (Hnone Hle) in Hl; discriminate |].
    destruct (Hsome Hgt) as (l' & d & Hl' & Ho & Hi & Hd & Hdim).
    rewrite Hl in Hl'. injection Hl' as <-.
    split; [exact Ho |]. split.
    { destruct (String.eqb (HParams.clas_strategy hp) "all_time").
      - destruct (HParams.max_seq_length hp) as [L |]; [| discriminate].
        cbn in Hdim. injection Hdim as <-. eauto.
      - subst d. exact Hi. }
    (* the weights and the bias come from the layer's constructor *)
    unfold __init__, torch.nn_Dropout, rbind in Hin.
    destruct (gt zero (HParams.dropout hp) || gt (HParams.dropout hp) one);
      [discriminate |].
    destruct (Z.leb_spec (HParams.num_classes hp) 0); [lia |].
    assert (Hfields : forall d' kw l0,
               torch.nn_Linear init d' (HParams.num_classes hp) kw = Ok l0 ->
               l0 = l ->
               torch.weight l = torch.init_weight init
               /\ (kw = [] -> torch.bias l = Some (torch.init_bias init))).
    { intros d' kw l0 Hl0 <-. apply nn_Linear_fields in Hl0.
      destruct Hl0 as (Hw & b & Hb & Hbias). split; [exact Hw |].
      intros ->. cbn in Hb. injection Hb as <-. exact Hbias. }
    destruct (HParams.logit_layer_kwargs hp) as [| kw | v]; [| | discriminate].
    + destruct (String.eqb (HParams.clas_strategy hp) "all_time").
      * destruct (py_mul _ _) as [d' |]; [| discriminate].
        destruct (torch.nn_Linear init d' _ []) as [l0 |] eqn:El; [| discriminate].
        injection Hin as <-. cbn in Hl. injection Hl as Hl.
        destruct (Hfields _ _ _ El Hl) as (Hw & Hb). auto.
      * destruct (torch.nn_Linear init _ _ []) as [l0 |] eqn:El; [| discriminate].
        injection Hin as <-. cbn in Hl. injection Hl as Hl.
        destruct (Hfields _ _ _ El Hl) as (Hw & Hb). auto.
    + destruct (String.eqb (HParams.clas_strategy hp) "all_time").
      * destruct (py_mul _ _) as [d' |]; [| discriminate].
        destruct (torch.nn_Linear init d' _ kw) as [l0 |] eqn:El; [| discriminate].
        injection Hin as <-. cbn in Hl. injection Hl as Hl.
        destruct (Hfields _ _ _ El Hl) as (Hw & _). split; [exact Hw | discriminate].
      * destruct (torch.nn_Linear init _ _ kw) as [l0 |] eqn:El; [| discriminate].
        injection Hin as <-. cbn in Hl. injection Hl as Hl.
        destruct (Hfields _ _ _ El Hl) as (Hw & _). split; [exact Hw | discriminate].
Qed.

(** ** More on [output_size] *)

Lemma known_strategy_eqb (s : string) :
  In s known_strategies <->
  String.eqb s "time_wise" || String.eqb s "cls_time" || String.eqb s "all_time"
  = true.
Proof.
  unfold known_strategies. cbn [In].
  rewrite !orb_true_iff, !String.eqb_eq. intuition (auto; try easy).
Qed.

(** X7. Whenever the query returns a number, that number is
    [num_classes], it is at least 1, and the strategy is one of the three
    known ones. *)
Theorem output_size_ok_inv m (d : Z) :
  output_size m = Ok d ->
  d = HParams.num_classes (_hparams m) /\ 1 <= d
  /\ In (HParams.clas_strategy (_hparams m)) known_strategies.
Proof.
  unfold output_size. rewrite known_strategy_eqb.
  destruct (Z.ltb_spec (HParams.num_classes (_hparams m)) 1) as [| Hge];
    [discriminate |].
  destruct (String.eqb _ "cls_time"); destruct (String.eqb _ "all_time");
    destruct (String.eqb _ "time_wise"); cbn [orb];
    try discriminate;
    (destruct (Z.gtb_spec (HParams.num_classes (_hparams m)) 1);
     [| destruct (Z.eqb_spec (HParams.num_classes (_hparams m)) 1);
        [| discriminate]]);
    intros [= <-]; repeat split; lia.
Qed.

Lemma output_size_multiclass m :
  1 < HParams.num_classes (_hparams m) ->
  In (HParams.clas_strategy (_hparams m)) known_strategies ->
  output_size m = Ok (HParams.num_classes (_hparams m)).
Proof.
  intros Hn Hs. unfold output_size.
  destruct (Z.ltb_spec (HParams.num_classes (_hparams m)) 1); [lia |].
  destruct (Z.gtb_spec (HParams.num_classes (_hparams m)) 1); [| lia].
  apply known_strategy_cases in Hs. destruct Hs as [-> | [-> | ->]]; reflexivity.
Qed.

(** ** More on [forward] *)

(** A call that returns went through the encoder and the three stages. *)
Lemma forward_ok_inv m inputs sl sg g logits preds :
  fst (forward inputs sl sg (mkState m g)) = Ok (logits, preds) ->
  exists eo po g1 src lg g2,
    BERTEncoder.forward (_encoder m) (training m) inputs sl sg g
      = (Ok (eo, po), g1)
    /\ logits_source m inputs eo po = Ok src
    /\ projection m src g1 = (Ok lg, g2)
    /\ predictions m lg = Ok (logits, preds)
    /\ snd (forward inputs sl sg (mkState m g)) = mkState m g2.
Proof.
  rewrite forward_stages.
  destruct (BERTEncoder.forward _ _ _ _ _ _) as [[[eo po] | e] g1];
    [| discriminate].
  destruct (logits_source m inputs eo po) as [src |] eqn:Hsrc; [| discriminate].
  destruct (projection m src g1) as [[lg | e] g2] eqn:Hp; [| discriminate].
  cbn [fst snd rbind]. intros Hpred.
  exists eo, po, g1, src, lg, g2. auto.
Qed.

Lemma logits_source_known m inputs eo po src :
  logits_source m inputs eo po = Ok src ->
  In (HParams.clas_strategy (_hparams m)) known_strategies.
Proof.
  unfold logits_source. rewrite known_strategy_eqb.
  destruct (String.eqb _ "time_wise"); [reflexivity |].
  destruct (String.eqb _ "cls_time"); [reflexivity |].
  destruct (String.eqb _ "all_time"); [reflexivity | discriminate].
Qed.

Lemma last_dim_snoc {X} (t : Tensor X) pre n :
  shape t = pre ++ [n] -> last_dim t = n.
Proof. intros Hs. unfold last_dim. rewrite Hs. apply last_last. Qed.

(** X8. In multiclass mode the number [output_size] returns is the size
    of the last dimension of the logits that [forward] returns. *)
Theorem output_size_matches_logits
    hp enc init m0 mode inputs sl sg g logits preds :
  __init__ hp enc init = Ok m0 ->
  1 < HParams.num_classes hp ->
  fst (forward inputs sl sg (mkState (train mode m0) g)) = Ok (logits, preds) ->
  output_size (train mode m0) = Ok (Z.of_nat (last_dim logits)).
Proof.
  intros Hin Hn Hret.
  destruct (init_hparams _ _ _ _ Hin) as (Hhp & _).
  destruct (init_layer _ _ _ _ Hin ltac:(lia)) as (l & d & Hl & Ho & _).
  pose proof (multiclass_not_binary _ _ _ _ Hin Hn) as Hb.
  destruct (forward_ok_inv _ _ _ _ _ _ _ Hret)
    as (eo & po & g1 & src & lg & g2 & _ & Hsrc & Hp & Hpred & _).
  destruct (projection_layer_inv (train mode m0) l src g1 lg g2 Hl Hp)
    as (pre & _ & Hsh).
  assert (HC : exists n, Z.to_nat (HParams.num_classes hp) = S n).
  { exists (Nat.pred (Z.to_nat (HParams.num_classes hp))). lia. }
  destruct HC as (n & HC). rewrite Ho, HC in Hsh.
  destruct (predictions_multiclass (train mode m0) lg pre n Hb Hsh) as (_ & Hpr).
  rewrite Hpr in Hpred. injection Hpred as <- _.
  rewrite (last_dim_snoc lg pre (S n) Hsh), <- HC, Z2Nat.id by lia.
  rewrite <- Hhp. apply (output_size_multiclass (train mode m0)).
  - cbn [train _hparams]. rewrite Hhp. exact Hn.
  - apply (logits_source_known _ _ _ _ _ Hsrc).
Qed.

Lemma argmax_from_bound (l : list A) (best : A) (besti i : nat) :
  (besti < i)%nat ->
  (torch.argmax_from best besti i l < i + length l)%nat.
Proof.
  revert best besti i. induction l as [| x tl IH]; intros best besti i Hlt;
    cbn [torch.argmax_from length].
  - lia.
  - destruct (gt x best).
    + specialize (IH x i (S i) ltac:(lia)). lia.
    + specialize (IH best besti (S i) ltac:(lia)). lia.
Qed.

Lemma argmax_row_bound (l : list A) (n : nat) :
  (length l <= S n)%nat -> 0 <= torch.argmax_row l < Z.of_nat (S n).
Proof.
  intros Hlen. destruct l as [| x tl]; cbn [torch.argmax_row].
  - lia.
  - pose proof (argmax_from_bound tl x 0 1 ltac:(lia)) as Hb.
    cbn [length] in Hlen. lia.
Qed.

(** X9. The predictions are class indices: 0 or 1 in binary mode, and in
    multiclass mode numbers from 0 up to [num_classes - 1]. *)
Theorem predictions_in_range
    hp enc init m0 mode inputs sl sg g logits preds :
  __init__ hp enc init = Ok m0 ->
  fst (forward inputs sl sg (mkState (train mode m0) g)) = Ok (logits, preds) ->
  forall c, In c (data preds) ->
    (is_binary m0 = true -> c = 0 \/ c = 1)
    /\ (1 < HParams.num_classes hp -> 0 <= c < HParams.num_classes hp).
Proof.
  intros Hin Hret c Hc. split.
  - intros Hb.
    apply (forward_binary_preds (train mode m0)) in Hret; [| exact Hb].
    subst preds. cbn [torch.gt0_long data] in Hc.
    apply in_map_iff in Hc. destruct Hc as (x & <- & _).
    destruct (gt x zero); auto.
  - intros Hn.
    destruct (init_layer _ _ _ _ Hin ltac:(lia)) as (l & d & Hl & Ho & _).
    pose proof (multiclass_not_binary _ _ _ _ Hin Hn) as Hb.
    destruct (forward_ok_inv _ _ _ _ _ _ _ Hret)
      as (eo & po & g1 & src & lg & g2 & _ & _ & Hp & Hpred & _).
    destruct (projection_layer_inv (train mode m0) l src g1 lg g2 Hl Hp)
      as (pre & _ & Hsh).
    assert (HC : exists n, Z.to_nat (HParams.num_classes hp) = S n).
    { exists (Nat.pred (Z.to_nat (HParams.num_classes hp))). lia. }
    destruct HC as (n & HC). rewrite Ho, HC in Hsh.
    destruct (predictions_multiclass (train mode m0) lg pre n Hb Hsh) as (_ & Hpr).
    rewrite Hpr in Hpred. injection Hpred as _ <-.
    assert (Hc' : In c (map torch.argmax_row
                          (rows (S n) (numel_of pre) (data lg)))).
    { destruct (String.eqb _ "time_wise"); exact Hc. }
    apply in_map_iff in Hc'. destruct Hc' as (row & <- & Hrow).
    apply rows_short in Hrow.
    pose proof (argmax_row_bound row n Hrow). lia.
Qed.

(** X10. Without a projection layer ([num_classes <= 0]) neither dropout
    nor a projection is applied: the generator is left where the encoder
    left it, in training mode too, and the returned logits hold the
    encoder's values, those of the pooled output for [cls_time] and those
    of the per-token outputs for [time_wise]. *)
Theorem forward_without_layer
    hp enc init m0 mode inputs sl sg g eo po g1 :
  __init__ hp enc init = Ok m0 ->
  HParams.num_classes hp <= 0 ->
  BERTEncoder.forward enc mode inputs sl sg g = (Ok (eo, po), g1) ->
  let r := forward inputs sl sg (mkState (train mode m0) g) in
  snd r = mkState (train mode m0) g1
  /\ forall logits preds,
      fst r = Ok (logits, preds) ->
      (HParams.clas_strategy hp = "cls_time" -> data logits = data po)
      /\ (HParams.clas_strategy hp = "time_wise" -> data logits = data eo).
Proof.
  intros Hin Hn He r.
  destruct (init_hparams _ _ _ _ Hin) as (Hhp & Henc).
  pose proof (init_inv _ _ _ _ Hin) as Hinv. cbv zeta in Hinv.
  destruct Hinv as (_ & _ & _ & _ & _ & _ & Hnone & _).
  specialize (Hnone Hn).
  set (m := train mode m0) in *.
  assert (Hl : _logits_layer m = None) by exact Hnone.
  assert (Hst : HParams.clas_strategy (_hparams m) = HParams.clas_strategy hp).
  { subst m; cbn [train _hparams]. rewrite Hhp. reflexivity. }
  subst r. rewrite forward_stages.
  change (_encoder m) with (_encoder m0). change (training m) with mode.
  rewrite Henc, He.
  destruct (logits_source m inputs eo po) as [src |] eqn:Hsrc.
  - rewrite (projection_none m src g1 Hl). cbn [fst snd rbind].
    split; [reflexivity |].
    intros logits preds Hpred.
    assert (Hdata : data logits = data src).
    { unfold predictions in Hpred.
      destruct (String.eqb _ "time_wise"); destruct (is_binary m);
        try (destruct (torch.argmax src); cbn [rbind] in Hpred;
             [| discriminate]);
        injection Hpred as <- _; try reflexivity.
      unfold torch.squeeze_last.
      destruct (rev (shape src)) as [| [| [| ?]] ?]; reflexivity. }
    rewrite Hdata. unfold logits_source in Hsrc. rewrite Hst in Hsrc.
    split; intros Hs; rewrite Hs in Hsrc; cbn in Hsrc;
      injection Hsrc as <-; reflexivity.
  - cbn [fst snd]. split; [reflexivity | discriminate].
Qed.

(** X11. With a projection layer and the [cls_time] or [time_wise]
    strategy, a call whose encoder has returned succeeds exactly when the
    tensor the strategy selects has at least one dimension and its last
    one has the encoder's size. *)
Theorem forward_returns_iff
    hp enc init m0 mode inputs sl sg g eo po g1 :
  __init__ hp enc init = Ok m0 ->
  0 < HParams.num_classes hp ->
  HParams.clas_strategy hp = "cls_time"
  \/ HParams.clas_strategy hp = "time_wise" ->
  BERTEncoder.forward enc mode inputs sl sg g = (Ok (eo, po), g1) ->
  let src := if String.eqb (HParams.clas_strategy hp) "time_wise"
             then eo else po in
  is_ok (fst (forward inputs sl sg (mkState (train mode m0) g))) = true
  <-> exists pre,
      shape src = pre ++ [Z.to_nat (BERTEncoder.output_size enc)].
Proof.
  intros Hin Hn Hs He src.
  destruct (init_hparams _ _ _ _ Hin) as (Hhp & Henc).
  destruct (init_layer _ _ _ _ Hin Hn) as (l & d & Hl & Ho & Hi & Hd & Hdim).
  assert (Hnat : String.eqb (HParams.clas_strategy hp) "all_time" = false).
  { destruct Hs as [-> | ->]; reflexivity. }
  rewrite Hnat in Hdim. subst d.
  set (m := train mode m0).
  assert (Hsrc : logits_source m inputs eo po = Ok src).
  { unfold logits_source. subst m src. cbn [train _hparams]. rewrite Hhp.
    destruct Hs as [-> | ->]; reflexivity. }
  rewrite (forward_from_source m inputs sl sg g eo po g1 src
             ltac:(subst m; cbn [train _encoder training]; rewrite Henc; exact He)
             Hsrc).
  split.
  - intros Hok.
    destruct (projection m src g1) as [[lg | e] g2] eqn:Hp; [| discriminate].
    destruct (projection_layer_inv m l src g1 lg g2 Hl Hp) as (pre & Hsh & _).
    exists pre. rewrite Hsh, Hi. reflexivity.
  - intros (pre & Hsh).
    destruct (stages_return m src g1 pre (torch.in_features l))
      as (logits & preds & Hret).
    + rewrite Hsh, Hi. reflexivity.
    + change (_logits_layer m) with (_logits_layer m0). rewrite Hl.
      split; [reflexivity | lia].
    + rewrite Hret. reflexivity.
Qed.

(** *** Well-shaped results *)

Lemma linear_row_length (l : torch.Linear A) (row : list A) :
  length (torch.linear_row l row) = torch.out_features l.
Proof. unfold torch.linear_row. rewrite length_map, length_seq. reflexivity. Qed.

Lemma linear_forward_well_shaped (l : torch.Linear A) (t out : Tensor A) :
  torch.linear_forward l t = Ok out -> well_shaped out.
Proof.
  intros Hl. destruct (linear_forward_inv l t out Hl) as (pre & Hs & _).
  rewrite (linear_forward_ok l t pre Hs) in Hl. injection Hl as <-.
  unfold well_shaped. cbn [data shape].
  rewrite flat_map_concat_map, (length_concat_blocks (torch.out_features l)).
  - rewrite length_map, rows_length, numel_of_app. cbn. lia.
  - intros b Hb. apply in_map_iff in Hb. destruct Hb as (row & <- & _).
    apply linear_row_length.
Qed.

Lemma argmax_well_shaped (t : Tensor A) (p : Tensor Z) :
  torch.argmax t = Ok p -> well_shaped p.
Proof.
  unfold torch.argmax.
  destruct (rev (shape t)) as [| [| n] pre]; [| discriminate |];
    intros [= <-]; unfold well_shaped; cbn [data shape].
  - reflexivity.
  - rewrite length_map, rows_length. reflexivity.
Qed.

Lemma flatten_well_shaped {X} (t : Tensor X) :
  well_shaped t -> well_shaped (torch.flatten t).
Proof.
  unfold well_shaped, torch.flatten. cbn [data shape numel_of fold_right].
  intros ->. lia.
Qed.

Lemma squeeze_last_well_shaped {X} (t : Tensor X) :
  well_shaped t -> well_shaped (torch.squeeze_last t).
Proof.
  unfold torch.squeeze_last. intros Hw.
  destruct (rev (shape t)) as [| [| [| n]] pre] eqn:Er; try exact Hw.
  unfold well_shaped in *. cbn [data shape]. rewrite Hw.
  rewrite <- (rev_involutive (shape t)), Er. cbn [rev].
  rewrite numel_of_app. cbn. lia.
Qed.

Lemma gt0_long_well_shaped (t : Tensor A) :
  well_shaped t -> well_shaped (torch.gt0_long t).
Proof.
  unfold well_shaped, torch.gt0_long. cbn [data shape].
  rewrite length_map. auto.
Qed.

Lemma predictions_well_shaped m lg logits preds :
  well_shaped lg ->
  predictions m lg = Ok (logits, preds) ->
  well_shaped logits /\ well_shaped preds.
Proof.
  intros Hw. unfold predictions.
  destruct (String.eqb _ "time_wise"); destruct (is_binary m).
  - intros [= <- <-]. split.
    + apply squeeze_last_well_shaped, Hw.
    + apply gt0_long_well_shaped, squeeze_last_well_shaped, Hw.
  - destruct (torch.argmax lg) as [p0 |] eqn:Ha; [| discriminate].
    intros [= <- <-]. split; [exact Hw | exact (argmax_well_shaped _ _ Ha)].
  - intros [= <- <-]. split.
    + apply flatten_well_shaped, Hw.
    + apply flatten_well_shaped, gt0_long_well_shaped, Hw.
  - destruct (torch.argmax lg) as [p0 |] eqn:Ha; [| discriminate].
    intros [= <- <-]. split; [exact Hw |].
    apply flatten_well_shaped, (argmax_well_shaped _ _ Ha).
Qed.

(** X12. An instance with a projection layer returns well-shaped
    tensors, whatever the encoder hands it: the logits and the predictions
    hold exactly as many elements as their shapes say. *)
Theorem forward_well_shaped m (l : torch.Linear A) inputs sl sg g logits preds :
  _logits_layer m = Some l ->
  fst (forward inputs sl sg (mkState m g)) = Ok (logits, preds) ->
  well_shaped logits /\ well_shaped preds.
Proof.
  intros Hl Hret.
  destruct (forward_ok_inv _ _ _ _ _ _ _ Hret)
    as (eo & po & g1 & src & lg & g2 & _ & _ & Hp & Hpred & _).
  apply (predictions_well_shaped m lg); [| exact Hpred].
  unfold projection in Hp. rewrite Hl in Hp.
  destruct (dropout_forward _ _ src g1) as [d g']. injection Hp as Hlin _.
  exact (linear_forward_well_shaped l d lg Hlin).
Qed.

(** *** One sequence at a time *)

(** X13. In evaluation mode with [cls_time] and several classes, every
    sequence is classified on its own: the logits of sequence [b] are the
    layer applied to row [b] of the pooled output, and its prediction is
    the argmax of those logits. *)
Theorem forward_cls_time_per_sequence
    hp enc init m0 inputs sl sg g eo po g1 (B : nat) :
  __init__ hp enc init = Ok m0 ->
  1 < HParams.num_classes hp ->
  HParams.clas_strategy hp = "cls_time" ->
  BERTEncoder.forward enc false inputs sl sg g = (Ok (eo, po), g1) ->
  shape po = [B; Z.to_nat (BERTEncoder.output_size enc)] ->
  exists l,
    _logits_layer m0 = Some l
    /\ let pooled_rows :=
         rows (Z.to_nat (BERTEncoder.output_size enc)) B (data po) in
       fst (forward inputs sl sg (mkState (eval m0) g))
       = Ok (mkTensor [B; Z.to_nat (HParams.num_classes hp)]
               (concat (map (torch.linear_row l) pooled_rows)),
             mkTensor [B]
               (map (fun row => torch.argmax_row (torch.linear_row l row))
                    pooled_rows)).
Proof.
  intros Hin Hn Hs He Hpo.
  destruct (init_hparams _ _ _ _ Hin) as (Hhp & Henc).
  destruct (init_layer _ _ _ _ Hin ltac:(lia)) as (l & d & Hl & Ho & Hi & Hd & Hdim).
  rewrite Hs in Hdim. cbn in Hdim. subst d.
  pose proof (multiclass_not_binary _ _ _ _ Hin Hn) as Hb.
  exists l. split; [exact Hl |]. cbv zeta.
  set (m := eval m0).
  assert (Hsrc : logits_source m inputs eo po = Ok po).
  { unfold logits_source. subst m. cbn [eval train _hparams].
    rewrite Hhp, Hs. reflexivity. }
  rewrite (forward_from_source m inputs sl sg g eo po g1 po
             ltac:(subst m; cbn [eval train _encoder training];
                   rewrite Henc; exact He) Hsrc).
  rewrite (projection_eval m po g1 eq_refl).
  change (_logits_layer m) with (_logits_layer m0). rewrite Hl. cbn [fst].
  rewrite (linear_forward_ok l po [B]) by (rewrite Hpo, Hi; reflexivity).
  cbn [rbind]. unfold predictions.
  change (is_binary m) with (is_binary m0). rewrite Hb.
  change (_hparams m) with (_hparams m0). rewrite Hhp, Hs.
  cbn [String.eqb Ascii.eqb Bool.eqb].
  assert (HC : exists n, torch.out_features l = S n).
  { exists (Nat.pred (torch.out_features l)). lia. }
  destruct HC as (n & HC).
  rewrite (argmax_ok _ [B] n) by (cbn [shape app]; rewrite HC; reflexivity).
  cbn [rbind data]. rewrite flatten_vector.
  cbn [app numel_of fold_right]. rewrite Nat.mul_1_r, flat_map_concat_map.
  rewrite Hi, Ho. do 3 f_equal. rewrite <- HC.
  set (R := rows (Z.to_nat (BERTEncoder.output_size enc)) B (data po)).
  assert (HR : length R = B) by apply rows_length.
  clearbody R.
  replace B with (length (map (torch.linear_row l) R))
    by (rewrite length_map; exact HR).
  rewrite rows_concat.
  - rewrite map_map. reflexivity.
  - intros b Hbin. apply in_map_iff in Hbin. destruct Hbin as (row & <- & _).
    apply linear_row_length.
Qed.

(** *** Padding in [all_time] *)

(** With an input no longer than [max_seq_length], the logits source of
    [all_time] has one row per sequence: the sequence's features followed
    by zeros. *)
Lemma all_time_source_padded m inputs eo po (B T : nat) (Lz : Z) :
  HParams.clas_strategy (_hparams m) = "all_time" ->
  HParams.max_seq_length (_hparams m) = Some Lz ->
  let osz := BERTEncoder.output_size (_encoder m) in
  let F := Z.to_nat osz in
  shape inputs = [B; T] ->
  shape eo = [B; T; F] -> well_shaped eo ->
  (1 <= B)%nat -> 1 <= osz -> 1 <= Lz -> Z.of_nat T <= Lz ->
  logits_source m inputs eo po
  = Ok (mkTensor [B; Z.to_nat (osz * Lz)]
          (flat_map (fun blk => blk ++ repeat zero ((Z.to_nat Lz - T) * F))
             (rows (T * F) B (data eo)))).
Proof.
  intros Hs Hmax osz F Hin Heo Hw HB HF HL HT.
  destruct (all_time_source m inputs eo po B T Lz Hs Hmax Hin Heo HB HF HL)
    as (padded & Hpad & _ & Hsrc).
  rewrite Hsrc. do 2 f_equal.
  assert (Hnt : 0 < Z.of_nat T + (Lz - Z.of_nat T)) by lia.
  rewrite (pad_time_ok eo B T F (Lz - Z.of_nat T) Heo HB ltac:(subst F; lia) Hnt)
    in Hpad.
  injection Hpad as <-. cbn [data].
  replace (Z.of_nat T + (Lz - Z.of_nat T)) with Lz by lia.
  rewrite !flat_map_concat_map. f_equal. apply map_ext_in. intros blk Hblk.
  apply (rows_row_length (T * F) B) in Hblk.
  - apply firstn_all2. rewrite length_app, repeat_length, Hblk.
    rewrite <- Nat.mul_add_distr_r.
    replace (T + (Z.to_nat Lz - T))%nat with (Z.to_nat Lz) by lia.
    apply Nat.le_refl.
  - unfold well_shaped in Hw. rewrite Hw, Heo. cbn. lia.
Qed.

(** X14. With [all_time] and inputs of exactly [max_seq_length] time
    steps nothing is padded: the call returns what the projection and the
    predictions make of the per-token outputs viewed as [B] rows of
    [T * F] features, with the same elements in the same order. *)
Theorem forward_all_time_exact_length
    m inputs sl sg g eo po g1 (B T : nat) :
  HParams.clas_strategy (_hparams m) = "all_time" ->
  HParams.max_seq_length (_hparams m) = Some (Z.of_nat T) ->
  BERTEncoder.forward (_encoder m) (training m) inputs sl sg g
    = (Ok (eo, po), g1) ->
  let osz := BERTEncoder.output_size (_encoder m) in
  shape inputs = [B; T] ->
  shape eo = [B; T; Z.to_nat osz] -> well_shaped eo ->
  (1 <= B)%nat -> 1 <= osz -> (1 <= T)%nat ->
  fst (forward inputs sl sg (mkState m g))
  = rbind (fst (projection m
                  (mkTensor [B; (T * Z.to_nat osz)%nat] (data eo)) g1))
          (predictions m).
Proof.
  intros Hs Hmax He osz Hin Heo Hw HB HF HT.
  pose proof (all_time_source_padded m inputs eo po B T (Z.of_nat T) Hs Hmax
                Hin Heo Hw HB HF ltac:(lia) ltac:(lia)) as Hsrc.
  cbv zeta in Hsrc. fold osz in Hsrc.
  rewrite Nat2Z.id, Nat.sub_diag in Hsrc. cbn [Nat.mul repeat] in Hsrc.
  rewrite (flat_map_ext _ (fun blk => blk)) in Hsrc
    by (intros blk; apply app_nil_r).
  rewrite flat_map_concat_map, map_id, concat_rows in Hsrc.
  - replace (Z.to_nat (osz * Z.of_nat T)) with (T * Z.to_nat osz)%nat in Hsrc
      by (rewrite Z2Nat.inj_mul, Nat2Z.id by lia; apply Nat.mul_comm).
    exact (forward_from_source m inputs sl sg g eo po g1 _ He Hsrc).
  - unfold well_shaped in Hw. rewrite Hw, Heo. cbn. lia.
Qed.

(** X15. With [all_time] and inputs of [T <= max_seq_length] time steps,
    the row of each sequence fed to the projection is its [T * F]
    features followed by [(max_seq_length - T) * F] zeros. *)
Theorem forward_all_time_zero_padding
    m inputs sl sg g eo po g1 (B T : nat) (Lz : Z) :
  HParams.clas_strategy (_hparams m) = "all_time" ->
  HParams.max_seq_length (_hparams m) = Some Lz ->
  BERTEncoder.forward (_encoder m) (training m) inputs sl sg g
    = (Ok (eo, po), g1) ->
  let osz := BERTEncoder.output_size (_encoder m) in
  let F := Z.to_nat osz in
  shape inputs = [B; T] ->
  shape eo = [B; T; F] -> well_shaped eo ->
  (1 <= B)%nat -> 1 <= osz -> 1 <= Lz -> Z.of_nat T <= Lz ->
  fst (forward inputs sl sg (mkState m g))
  = rbind (fst (projection m
                  (mkTensor [B; Z.to_nat (osz * Lz)]
                     (flat_map
                        (fun features =>
                           features ++ repeat zero ((Z.to_nat Lz - T) * F))
                        (rows (T * F) B (data eo)))) g1))
          (predictions m).
Proof.
  intros Hs Hmax He osz F Hin Heo Hw HB HF HL HT.
  apply (forward_from_source m inputs sl sg g eo po g1 _ He).
  apply all_time_source_padded; assumption.
Qed.

(** X16. With [all_time] and one class (binary mode), logits and
    predictions both come back with shape [B]. *)
Theorem forward_all_time_binary
    hp enc init m0 mode inputs sl sg g eo po g1 (B T : nat) (Lz : Z) :
  __init__ hp enc init = Ok m0 ->
  HParams.num_classes hp = 1 ->
  HParams.clas_strategy hp = "all_time" ->
  HParams.max_seq_length hp = Some Lz ->
  BERTEncoder.forward enc mode inputs sl sg g = (Ok (eo, po), g1) ->
  shape inputs = [B; T] ->
  shape eo = [B; T; Z.to_nat (BERTEncoder.output_size enc)] ->
  (1 <= B)%nat -> 1 <= BERTEncoder.output_size enc -> 1 <= Lz ->
  exists logits preds,
    fst (forward inputs sl sg (mkState (train mode m0) g)) = Ok (logits, preds)
    /\ shape logits = [B] /\ shape preds = [B]
    /\ preds = torch.gt0_long logits.
Proof.
  intros Hin Hn Hs Hmax He Hinp Heo HB HF HL.
  destruct (init_hparams _ _ _ _ Hin) as (Hhp & Henc).
  destruct (init_layer _ _ _ _ Hin ltac:(lia)) as (l & d & Hl & Ho & Hi & Hd & Hdim).
  rewrite Hs, Hmax in Hdim. cbn in Hdim. injection Hdim as <-.
  pose proof (init_inv _ _ _ _ Hin) as Hinv. cbv zeta in Hinv.
  destruct Hinv as (_ & _ & _ & Hb & _).
  rewrite Hn in Hb. cbn in Hb.
  set (m := train mode m0).
  destruct (all_time_source m inputs eo po B T Lz)
    as (padded & _ & _ & Hsrc);
    try (subst m; cbn [train _hparams _encoder]; rewrite ?Hhp, ?Henc; assumption).
  rewrite (forward_from_source m inputs sl sg g eo po g1 _
             ltac:(subst m; cbn [train _encoder training]; rewrite Henc; exact He)
             Hsrc).
  match type of Hsrc with
  | _ = Ok ?src =>
      destruct (projection_layer m l src g1 [B] Hl) as (dd & g2 & Hp)
  end.
  { cbn [shape app]. subst m. cbn [train _encoder]. rewrite Henc, Hi. reflexivity. }
  rewrite Hp. cbn [fst rbind]. unfold predictions.
  change (is_binary m) with (is_binary m0). rewrite Hb.
  change (_hparams m) with (_hparams m0). rewrite Hhp, Hs.
  cbn [String.eqb Ascii.eqb Bool.eqb].
  eexists; eexists. split; [reflexivity |].
  rewrite Ho, Hn. cbn. rewrite Nat.mul_1_r. auto.
Qed.

End Coverage.

(** * The further properties on concrete inputs *)

Section CoverageWitnesses.
Import Sample MoreSamples.
Local Open Scope list_scope.

(** X2 on [hidden_size]. *)
Lemma default_hparams_keeps_encoder_witness :
  dict_get "hidden_size" (default_hparams encoder_defaults) = Some (HPInt 768).
Proof.
  rewrite (default_hparams_keeps_encoder encoder_defaults "hidden_size").
  - reflexivity.
  - cbn. intros Hin.
    repeat (destruct Hin as [Hin | Hin]; [discriminate |]). exact Hin.
Defined.

(** X3 on the excerpt of the encoder's defaults. *)
Lemma default_hparams_keys_witness :
  NoDup (map fst (default_hparams encoder_defaults)).
Proof.
  apply (proj2 (default_hparams_keys encoder_defaults)).
  cbn. repeat constructor; cbn; intros Hin;
    repeat (destruct Hin as [Hin | Hin]; [discriminate |]); exact Hin.
Defined.

(** X5 on a [logit_layer_kwargs] that is an integer. *)
Lemma init_logit_layer_kwargs_witness :
  BERTClassifier.__init__ bad_kwargs encoder init
  = Raise (ValueError "hparams['logit_layer_kwargs'] must be a dict.").
Proof.
  destruct (init_logit_layer_kwargs bad_kwargs encoder init) as (Hbad & _);
    [reflexivity |].
  apply (Hbad ltac:(simpl; lia) (PyInt 3)). reflexivity.
Defined.

(** X6 on the [all_time] instance with [max_seq_length = 4]. *)
Lemma init_layer_shape_witness :
  BERTClassifier.training (build all_time_padded) = true
  /\ BERTClassifier.num_classes (build all_time_padded) = 2.
Proof.
  assert (Hinit : BERTClassifier.__init__ all_time_padded encoder init
                  = Ok (build all_time_padded)) by reflexivity.
  destruct (init_layer_shape all_time_padded encoder init
              (build all_time_padded) Hinit) as (Ht & Hn & _).
  split; [exact Ht | exact Hn].
Defined.

(** X7 on the five-class instance. *)
Lemma output_size_ok_inv_witness :
  5 = HParams.num_classes five_class /\ 1 <= 5
  /\ In (HParams.clas_strategy five_class) known_strategies.
Proof.
  exact (output_size_ok_inv (build five_class) 5 ltac:(reflexivity)).
Defined.

(** X8 on the two-class instance. *)
Lemma output_size_matches_logits_witness :
  exists logits preds,
    run (BERTClassifier.train false (build two_class)) keep_all
    = Ok (logits, preds)
    /\ BERTClassifier.output_size (BERTClassifier.train false (build two_class))
       = Ok (Z.of_nat (last_dim logits)).
Proof.
  assert (Hinit : BERTClassifier.__init__ two_class encoder init
                  = Ok (build two_class)) by reflexivity.
  assert (Hret : run (BERTClassifier.train false (build two_class)) keep_all
                 = Ok (mkTensor [2%nat; 2%nat] [-1 # 1; -1 # 1; 4 # 1; 4 # 1]%Q,
                       mkTensor [2%nat] [0; 0]))
    by (vm_compute; reflexivity).
  do 2 eexists. split; [exact Hret |].
  apply (output_size_matches_logits two_class encoder init (build two_class)
           false inputs None None keep_all _ _ Hinit ltac:(simpl; lia) Hret).
Defined.

(** X9 on the two-class instance in evaluation mode. *)
Lemma predictions_in_range_witness :
  0 <= 0 < HParams.num_classes two_class.
Proof.
  assert (Hinit : BERTClassifier.__init__ two_class encoder init
                  = Ok (build two_class)) by reflexivity.
  assert (Hret : fst (BERTClassifier.forward inputs None None
                        (BERTClassifier.mkState
                           (BERTClassifier.train false (build two_class))
                           keep_all))
                 = Ok (mkTensor [2%nat; 2%nat] [-1 # 1; -1 # 1; 4 # 1; 4 # 1]%Q,
                       mkTensor [2%nat] [0; 0]))
    by (vm_compute; reflexivity).
  destruct (predictions_in_range two_class encoder init (build two_class)
              false inputs None None keep_all _ _ Hinit Hret 0
              ltac:(left; reflexivity)) as (_ & Hr).
  apply Hr. simpl; lia.
Defined.

(** X10 on an instance without a layer, in training mode. *)
Lemma forward_without_layer_witness :
  snd (BERTClassifier.forward inputs None None
         (BERTClassifier.mkState (BERTClassifier.train true (build no_layer))
            fading))
  = BERTClassifier.mkState (BERTClassifier.train true (build no_layer)) fading.
Proof.
  assert (Hinit : BERTClassifier.__init__ no_layer encoder init
                  = Ok (build no_layer)) by reflexivity.
  apply (forward_without_layer no_layer encoder init (build no_layer) true
           inputs None None fading enc_outputs pooled_output fading
           Hinit ltac:(simpl; lia) ltac:(reflexivity)).
Defined.

(** X11 on the two-class instance. *)
Lemma forward_returns_iff_witness :
  is_ok (run (BERTClassifier.train true (build two_class)) keep_all) = true.
Proof.
  assert (Hinit : BERTClassifier.__init__ two_class encoder init
                  = Ok (build two_class)) by reflexivity.
  apply (forward_returns_iff two_class encoder init (build two_class) true
           inputs None None keep_all enc_outputs pooled_output keep_all
           Hinit ltac:(simpl; lia) ltac:(left; reflexivity) ltac:(reflexivity)).
  exists [2%nat]. reflexivity.
Defined.

(** X12 on the two-class instance. *)
Lemma forward_well_shaped_witness :
  exists logits preds,
    run (build two_class) keep_all = Ok (logits, preds)
    /\ well_shaped logits /\ well_shaped preds.
Proof.
  do 2 eexists. split; [reflexivity |].
  apply (forward_well_shaped (build two_class) two_class_layer
           inputs None None keep_all); reflexivity.
Defined.

(** X13 on the two-class instance. *)
Lemma forward_cls_time_per_sequence_witness :
  exists l,
    BERTClassifier._logits_layer (build two_class) = Some l
    /\ fst (BERTClassifier.forward inputs None None
              (BERTClassifier.mkState (BERTClassifier.eval (build two_class))
                 keep_all))
       = Ok (mkTensor [2%nat; 2%nat]
               (concat (map (torch.linear_row l)
                          (rows 2 2 (data pooled_output)))),
             mkTensor [2%nat]
               (map (fun row => torch.argmax_row (torch.linear_row l row))
                    (rows 2 2 (data pooled_output)))).
Proof.
  assert (Hinit : BERTClassifier.__init__ two_class encoder init
                  = Ok (build two_class)) by reflexivity.
  exact (forward_cls_time_per_sequence two_class encoder init (build two_class)
           inputs None None keep_all enc_outputs pooled_output keep_all 2%nat
           Hinit ltac:(simpl; lia) ltac:(reflexivity) ltac:(reflexivity) ltac:(reflexivity)).
Defined.

(** X14 on inputs of three time steps with [max_seq_length = 3]. *)
Lemma forward_all_time_exact_length_witness :
  run (build all_time_exact) keep_all
  = rbind (fst (projection (build all_time_exact)
                  (mkTensor [2%nat; 6%nat] (data enc_outputs)) keep_all))
          (predictions (build all_time_exact)).
Proof.
  apply (forward_all_time_exact_length (build all_time_exact)
           inputs None None keep_all enc_outputs pooled_output keep_all
           2%nat 3%nat ltac:(reflexivity) ltac:(reflexivity) ltac:(reflexivity) ltac:(reflexivity) ltac:(reflexivity) ltac:(reflexivity));
    simpl; lia.
Defined.

(** X15 on inputs of three time steps with [max_seq_length = 4]. *)
Lemma forward_all_time_zero_padding_witness :
  run (build all_time_padded) keep_all
  = rbind (fst (projection (build all_time_padded)
                  (mkTensor [2%nat; 8%nat]
                     (flat_map (fun features => features ++ [0; 0]%Q)
                        (rows 6 2 (data enc_outputs)))) keep_all))
          (predictions (build all_time_padded)).
Proof.
  apply (forward_all_time_zero_padding (build all_time_padded)
           inputs None None keep_all enc_outputs pooled_output keep_all
           2%nat 3%nat 4 ltac:(reflexivity) ltac:(reflexivity) ltac:(reflexivity) ltac:(reflexivity) ltac:(reflexivity) ltac:(reflexivity));
    simpl; lia.
Defined.

(** X16 on the one-class [all_time] instance. *)
Lemma forward_all_time_binary_witness :
  exists logits preds,
    run (BERTClassifier.train true (build all_time_binary)) keep_all
    = Ok (logits, preds)
    /\ shape logits = [2%nat] /\ shape preds = [2%nat].
Proof.
  assert (Hinit : BERTClassifier.__init__ all_time_binary encoder init
                  = Ok (build all_time_binary)) by reflexivity.
  destruct (forward_all_time_binary all_time_binary encoder init
              (build all_time_binary) true inputs None None keep_all
              enc_outputs pooled_output keep_all 2%nat 3%nat 4
              Hinit ltac:(reflexivity) ltac:(reflexivity) ltac:(reflexivity) ltac:(reflexivity) ltac:(reflexivity) ltac:(reflexivity))
    as (logits & preds & Hret & Hl & Hp & _); try (simpl; lia).
  exists logits, preds. auto.
Defined.

End CoverageWitnesses.
